(** * Komorebi MindMate: the session-lifecycle controller and the
      session-completion stored procedure

    A shallow embedding of

    - the [MainSession] page component (message gating, insight cadence,
      insight generation with its local fallback, archival, new-session
      reset, the effects that follow a render, and the choice of view on
      render), and
    - the PL/pgSQL procedure [complete_chat_session].

    React state is a record, the two browser storage areas are finite maps
    from keys to stored items, the wall clock and the outcomes of remote
    calls are explicit inputs, and handlers are written in a small
    state-and-exception monad so that they read like the source. *)

From Stdlib Require Import ZArith Ascii String.
From stdpp Require Import base option list strings gmap pretty.

Local Open Scope string_scope.
Local Open Scope list_scope.
Local Open Scope Z_scope.

(** ** Data model (the [types] module of the application) *)

Inductive Role := RoleUser | RoleAssistant.
Inductive SessionType := morning | evening.

Global Instance Role_eq_dec : EqDecision Role.
Proof. solve_decision. Defined.
Global Instance SessionType_eq_dec : EqDecision SessionType.
Proof. solve_decision. Defined.

(** Dates are milliseconds since the epoch. *)
Abbreviation Date := Z (only parsing).

(** A [NatureScene] is one of a fixed set of scene names. *)
Abbreviation NatureScene := string (only parsing).

Module Message.
Record t := mk {
  id : string;
  content : string;
  role : Role;
  timestamp : Date
}.
End Message.

Module SessionLimits.
Record t := mk {
  morningCompleted : bool;
  eveningCompleted : bool;
  messagesUsed : Z;
  maxMessages : Z;
  lastMorningSession : option Date;
  lastEveningSession : option Date
}.

(** [{...l, messagesUsed: n}] *)
Definition with_messagesUsed (n : Z) (l : t) : t :=
  mk (morningCompleted l) (eveningCompleted l) n (maxMessages l)
     (lastMorningSession l) (lastEveningSession l).

(** [{...l, lastMorningSession: d}] and [{...l, lastEveningSession: d}] *)
Definition with_lastMorningSession (d : Date) (l : t) : t :=
  mk (morningCompleted l) (eveningCompleted l) (messagesUsed l) (maxMessages l)
     (Some d) (lastEveningSession l).
Definition with_lastEveningSession (d : Date) (l : t) : t :=
  mk (morningCompleted l) (eveningCompleted l) (messagesUsed l) (maxMessages l)
     (lastMorningSession l) (Some d).
End SessionLimits.

Module InsightCard.
Record t := mk {
  id : string;
  quote : string;
  type : SessionType;
  sessionId : string;
  createdAt : Date;
  sceneType : NatureScene;
  videoStillUrl : option string
}.
End InsightCard.

Module ArchivedChatSession.
Record t := mk {
  id : string;
  type : SessionType;
  messages : list Message.t;
  createdAt : Date;
  sceneType : NatureScene;
  messageCount : nat;
  duration : Z;
  insightCardId : option string
}.
End ArchivedChatSession.

(** ** Browser storage

    Both storage areas map keys to text.  What the controller stores is
    either the serialisation of a value (through the adapter) or, in one
    place, the raw text of an ISO timestamp written with
    [localStorage.setItem] directly. *)

Inductive JVal :=
| JNull
| JStr (s : string)
| JIso (d : Date)                               (* [d.toISOString()] *)
| JLimits (l : SessionLimits.t)
| JMessages (l : list Message.t)
| JInsights (l : list InsightCard.t)
| JSessions (l : list ArchivedChatSession.t).

Inductive Item :=
| Json (v : JVal)           (* the serialisation of [v] *)
| RawIso (d : Date).        (* the unquoted text of [d.toISOString()] *)

Inductive Scope := Durable | Ephemeral.   (* localStorage, sessionStorage *)

Global Instance Scope_eq_dec : EqDecision Scope.
Proof. solve_decision. Defined.

(** Modelled from the spec: [getStorageItem] and [getSessionStorageItem] of
    [utils/storageUtils], which are not part of the sources at hand. The
    adapter returns the stored value, and the caller's default when the key
    is absent or its text does not deserialise; the raw ISO text is not the
    serialisation of any value. *)
Definition getItem (st : gmap string Item) (key : string) (default : JVal) : JVal :=
  match st !! key with
  | Some (Json v) => v
  | Some (RawIso _) | None => default
  end.

(** Modelled from the spec: [setStorageItem] and [setSessionStorageItem] of
    [utils/storageUtils]: the value is serialised and stored under the key. *)
Definition setItem (st : gmap string Item) (key : string) (v : JVal) : gmap string Item :=
  <[key := Json v]> st.

(** Reading a list back at its expected type; anything else counts as not
    deserialisable and yields the default the call site passes, [[]]. *)
Definition asInsights (v : JVal) : list InsightCard.t :=
  match v with JInsights l => l | _ => [] end.
Definition asSessions (v : JVal) : list ArchivedChatSession.t :=
  match v with JSessions l => l | _ => [] end.

(** The same for what the mount effect reads back: under each key the page
    reads what it wrote there, and a value of any other shape counts as not
    deserialisable, like a missing key. *)
Definition asLimits (v : JVal) : option SessionLimits.t :=
  match v with JLimits l => Some l | _ => None end.
Definition asDate (v : JVal) : option Date :=
  match v with JIso d => Some d | _ => None end.
Definition asMessages (v : JVal) : list Message.t :=
  match v with JMessages l => l | _ => [] end.
Definition asScene (v : JVal) : string :=
  match v with JStr s => s | _ => "" end.

(** [v !== null] *)
Definition notNull (v : JVal) : bool :=
  match v with JNull => false | _ => true end.

(** [typeof v === 'string' ? JSON.parse(v) : v] under the video key, where
    the page stores the text of a boolean: the text of [false] gives
    [false]; the text of [true], which is also the default of the call
    site, gives [true]. *)
Definition asFlag (v : JVal) : bool :=
  match v with JStr s => negb (String.eqb s "false") | _ => true end.

(** ** The authentication context and what a render computes from it *)

Record Profile := {
  name : option string;
  is_pro : bool
}.

Record TimeOfDay := {
  period : string;
  greeting : string;
  shouldAutoStart : bool
}.

(** What [useAuth] returns, with the wall clock read during the render.
    A registered account has a [user]; a guest has none and [isGuest] set;
    a visitor has neither. *)
Record Render := {
  user : option string;
  profile : option Profile;
  isGuest : bool;
  clock : Date
}.

(** [profile?.is_pro === true] *)
Definition isPro (r : Render) : bool :=
  match profile r with Some p => is_pro p | None => false end.

(** [profile?.name] *)
Definition profileName (r : Render) : option string :=
  match profile r with Some p => name p | None => None end.

(** [user || isGuest] *)
Definition userOrGuest (r : Render) : bool :=
  match user r with Some _ => true | None => isGuest r end.

(** The storage area the adapter [storage] of the component selects:
    [localStorage] for a logged-in user, [sessionStorage] otherwise. *)
Definition scopeOf (r : Render) : Scope :=
  match user r with Some _ => Durable | None => Ephemeral end.

(** ** Component state *)

Record Comp := {
  messages : list Message.t;
  isLoading : bool;
  insightCard : option InsightCard.t;
  sessionStartTime : option Date;
  currentScene : NatureScene;
  videoEnabled : bool;
  userMessagesSinceLastInsight : Z;
  showGenerateInsightButton : bool;
  isGeneratingInsight : bool;
  showControls : bool;
  sessionLimits : SessionLimits.t
}.

(** The [useState] initialisers. *)
Definition initialComp (r : Render) : Comp := {|
  messages := [];
  isLoading := false;
  insightCard := None;
  sessionStartTime := None;
  currentScene := "ocean";
  videoEnabled := true;
  userMessagesSinceLastInsight := 0;
  showGenerateInsightButton := false;
  isGeneratingInsight := false;
  showControls := false;
  sessionLimits :=
    SessionLimits.mk false false 0 (if isPro r then 999 else 4) None None
|}.

(** Calls that leave the page: storage writes and remote requests, in the
    order they are made. *)
Inductive Effect :=
| StorageWrite (sc : Scope) (key : string) (it : Item)
| ChatRequest (content : string) (ty : SessionType)
              (history : list (Role * string)) (userName : option string)
| InsightRequest (msgs : list Message.t) (ty : SessionType).

Record World := {
  comp : Comp;
  localStorage : gmap string Item;
  sessionStorage : gmap string Item;
  effects : list Effect
}.

Definition initialWorld (r : Render) : World :=
  {| comp := initialComp r; localStorage := ∅; sessionStorage := ∅; effects := [] |}.

Definition storeOf (sc : Scope) (w : World) : gmap string Item :=
  match sc with Durable => localStorage w | Ephemeral => sessionStorage w end.

(** ** A state-and-exception monad for handlers

    A handler threads the world; a thrown exception keeps the state
    changes made before it. *)

Inductive Res (A : Type) :=
| Ok (a : A)
| Thrown (e : string).
Arguments Ok {A} a.
Arguments Thrown {A} e.

Definition M (A : Type) : Type := World -> Res A * World.

Definition ret {A} (a : A) : M A := fun w => (Ok a, w).

Definition bind {A B} (m : M A) (k : A -> M B) : M B :=
  fun w => match m w with
           | (Ok a, w') => k a w'
           | (Thrown e, w') => (Thrown e, w')
           end.

Definition throw {A} (e : string) : M A := fun w => (Thrown e, w).

(** [try { body } catch (error) { handler error }] *)
Definition tryCatch {A} (body : M A) (handler : string -> M A) : M A :=
  fun w => match body w with
           | (Ok a, w') => (Ok a, w')
           | (Thrown e, w') => handler e w'
           end.

(** [try { body } finally { fin }] *)
Definition tryFinally {A} (body : M A) (fin : M unit) : M A :=
  fun w => match body w with
           | (res, w') =>
               match fin w' with
               | (Ok _, w'') => (res, w'')
               | (Thrown e, w'') => (Thrown e, w'')
               end
           end.

Definition when (b : bool) (m : M unit) : M unit := if b then m else ret tt.

Declare Scope handler_scope.
Delimit Scope handler_scope with handler.
Notation "x <- m ;; k" := (bind m (fun x => k))
  (at level 100, m at next level, right associativity) : handler_scope.
Notation "m ;; k" := (bind m (fun _ => k))
  (at level 100, right associativity) : handler_scope.
Local Open Scope handler_scope.

Definition exec {A} (m : M A) (w : World) : World := snd (m w).
Definition outcome {A} (m : M A) (w : World) : Res A := fst (m w).

(** *** State setters *)

Definition modifyComp (f : Comp -> Comp) : M unit :=
  fun w => (Ok tt, {| comp := f (comp w); localStorage := localStorage w;
                      sessionStorage := sessionStorage w; effects := effects w |}).

(** [setMessages(prev => f prev)] *)
Definition setMessages (f : list Message.t -> list Message.t) : M unit :=
  modifyComp (fun c =>
    {| messages := f (messages c); isLoading := isLoading c;
       insightCard := insightCard c; sessionStartTime := sessionStartTime c;
       currentScene := currentScene c; videoEnabled := videoEnabled c;
       userMessagesSinceLastInsight := userMessagesSinceLastInsight c;
       showGenerateInsightButton := showGenerateInsightButton c;
       isGeneratingInsight := isGeneratingInsight c; showControls := showControls c;
       sessionLimits := sessionLimits c |}).

Definition setIsLoading (b : bool) : M unit :=
  modifyComp (fun c =>
    {| messages := messages c; isLoading := b;
       insightCard := insightCard c; sessionStartTime := sessionStartTime c;
       currentScene := currentScene c; videoEnabled := videoEnabled c;
       userMessagesSinceLastInsight := userMessagesSinceLastInsight c;
       showGenerateInsightButton := showGenerateInsightButton c;
       isGeneratingInsight := isGeneratingInsight c; showControls := showControls c;
       sessionLimits := sessionLimits c |}).

Definition setInsightCard (i : option InsightCard.t) : M unit :=
  modifyComp (fun c =>
    {| messages := messages c; isLoading := isLoading c;
       insightCard := i; sessionStartTime := sessionStartTime c;
       currentScene := currentScene c; videoEnabled := videoEnabled c;
       userMessagesSinceLastInsight := userMessagesSinceLastInsight c;
       showGenerateInsightButton := showGenerateInsightButton c;
       isGeneratingInsight := isGeneratingInsight c; showControls := showControls c;
       sessionLimits := sessionLimits c |}).

Definition setSessionStartTime (d : option Date) : M unit :=
  modifyComp (fun c =>
    {| messages := messages c; isLoading := isLoading c;
       insightCard := insightCard c; sessionStartTime := d;
       currentScene := currentScene c; videoEnabled := videoEnabled c;
       userMessagesSinceLastInsight := userMessagesSinceLastInsight c;
       showGenerateInsightButton := showGenerateInsightButton c;
       isGeneratingInsight := isGeneratingInsight c; showControls := showControls c;
       sessionLimits := sessionLimits c |}).

Definition setCurrentScene (scene : NatureScene) : M unit :=
  modifyComp (fun c =>
    {| messages := messages c; isLoading := isLoading c;
       insightCard := insightCard c; sessionStartTime := sessionStartTime c;
       currentScene := scene; videoEnabled := videoEnabled c;
       userMessagesSinceLastInsight := userMessagesSinceLastInsight c;
       showGenerateInsightButton := showGenerateInsightButton c;
       isGeneratingInsight := isGeneratingInsight c; showControls := showControls c;
       sessionLimits := sessionLimits c |}).

Definition setVideoEnabled (b : bool) : M unit :=
  modifyComp (fun c =>
    {| messages := messages c; isLoading := isLoading c;
       insightCard := insightCard c; sessionStartTime := sessionStartTime c;
       currentScene := currentScene c; videoEnabled := b;
       userMessagesSinceLastInsight := userMessagesSinceLastInsight c;
       showGenerateInsightButton := showGenerateInsightButton c;
       isGeneratingInsight := isGeneratingInsight c; showControls := showControls c;
       sessionLimits := sessionLimits c |}).

Definition setUserMessagesSinceLastInsight (n : Z) : M unit :=
  modifyComp (fun c =>
    {| messages := messages c; isLoading := isLoading c;
       insightCard := insightCard c; sessionStartTime := sessionStartTime c;
       currentScene := currentScene c; videoEnabled := videoEnabled c;
       userMessagesSinceLastInsight := n;
       showGenerateInsightButton := showGenerateInsightButton c;
       isGeneratingInsight := isGeneratingInsight c; showControls := showControls c;
       sessionLimits := sessionLimits c |}).

Definition setShowGenerateInsightButton (b : bool) : M unit :=
  modifyComp (fun c =>
    {| messages := messages c; isLoading := isLoading c;
       insightCard := insightCard c; sessionStartTime := sessionStartTime c;
       currentScene := currentScene c; videoEnabled := videoEnabled c;
       userMessagesSinceLastInsight := userMessagesSinceLastInsight c;
       showGenerateInsightButton := b;
       isGeneratingInsight := isGeneratingInsight c; showControls := showControls c;
       sessionLimits := sessionLimits c |}).

Definition setIsGeneratingInsight (b : bool) : M unit :=
  modifyComp (fun c =>
    {| messages := messages c; isLoading := isLoading c;
       insightCard := insightCard c; sessionStartTime := sessionStartTime c;
       currentScene := currentScene c; videoEnabled := videoEnabled c;
       userMessagesSinceLastInsight := userMessagesSinceLastInsight c;
       showGenerateInsightButton := showGenerateInsightButton c;
       isGeneratingInsight := b; showControls := showControls c;
       sessionLimits := sessionLimits c |}).

Definition setSessionLimits (l : SessionLimits.t) : M unit :=
  modifyComp (fun c =>
    {| messages := messages c; isLoading := isLoading c;
       insightCard := insightCard c; sessionStartTime := sessionStartTime c;
       currentScene := currentScene c; videoEnabled := videoEnabled c;
       userMessagesSinceLastInsight := userMessagesSinceLastInsight c;
       showGenerateInsightButton := showGenerateInsightButton c;
       isGeneratingInsight := isGeneratingInsight c; showControls := showControls c;
       sessionLimits := l |}).

(** *** Storage *)

Definition writeItem (sc : Scope) (key : string) (it : Item) : M unit :=
  fun w =>
    (Ok tt,
     {| comp := comp w;
        localStorage :=
          match sc with Durable => <[key := it]> (localStorage w)
                      | Ephemeral => localStorage w end;
        sessionStorage :=
          match sc with Durable => sessionStorage w
                      | Ephemeral => <[key := it]> (sessionStorage w) end;
        effects := effects w ++ [StorageWrite sc key it] |}).

(** [localStorage.setItem(key, d.toISOString())] *)
Definition localStorage_setItem (key : string) (d : Date) : M unit :=
  writeItem Durable key (RawIso d).

(** The component's [storage] adapter. *)
Definition storage_get (r : Render) (key : string) (default : JVal) : M JVal :=
  fun w => (Ok (getItem (storeOf (scopeOf r) w) key default), w).

Definition storage_set (r : Render) (key : string) (v : JVal) : M unit :=
  writeItem (scopeOf r) key (Json v).

Definition logEffect (e : Effect) : M unit :=
  fun w => (Ok tt, {| comp := comp w; localStorage := localStorage w;
                      sessionStorage := sessionStorage w;
                      effects := effects w ++ [e] |}).

(** ** Text helpers: [toLowerCase], [includes], [join]

    Text is a sequence of characters, and [toLowerCase] is the one of
    JavaScript on ASCII text, where only the letters A to Z change.
    Outside ASCII JavaScript lower-cases more than this, so what depends on
    the exact lower-cased text is stated for ASCII text. *)

Definition toLowerAscii (a : ascii) : ascii :=
  let n := N_of_ascii a in
  if ((65 <=? n) && (n <=? 90))%N then ascii_of_N (n + 32) else a.

Fixpoint toLowerCase (s : string) : string :=
  match s with
  | EmptyString => EmptyString
  | String a s' => String (toLowerAscii a) (toLowerCase s')
  end.

(** [s.includes(sub)] *)
Fixpoint includes (s sub : string) : bool :=
  String.prefix sub s ||
  match s with
  | EmptyString => false
  | String _ s' => includes s' sub
  end.

(** [l.join(sep)] *)
Definition join (sep : string) (l : list string) : string := String.concat sep l.



(** ** Numbers *)

(** [Math.round(x / d)] for a positive [d]: the nearest integer, halves up. *)
Definition Math_round_div (x d : Z) : Z := (2 * x + d) / (2 * d).

(** A JavaScript number that is finite and not negative is an IEEE 754
    double: [mantissa * 2 ^ exponent], the mantissa having at most 53
    bits. *)
Record Double := {
  mantissa : Z;
  exponent : Z
}.

(** What [Math.random()] can return: the doubles in [[0, 1)]. *)
Definition unitDouble (x : Double) : Prop :=
  0 <= mantissa x < 2 ^ 53 /\ -1074 <= exponent x <= -53.

(** [p / 2 ^ s] rounded to the nearest integer, a tie going to the even
    one: the rounding of IEEE 754 arithmetic. *)
Definition roundHalfEven (p s : Z) : Z :=
  let q := p / 2 ^ s in
  let rest := p mod 2 ^ s in
  if 2 * rest <? 2 ^ s then q
  else if 2 ^ s <? 2 * rest then q + 1
  else if Z.even q then q else q + 1.

(** [x * len] for the length of an array: the exact product, rounded to a
    mantissa of 53 bits when it has more. *)
Definition Double_times (x : Double) (len : nat) : Double :=
  let p := mantissa x * Z.of_nat len in
  let s := Z.max 0 (Z.log2 p + 1 - 53) in
  {| mantissa := roundHalfEven p s; exponent := exponent x + s |}.

(** [Math.floor(x)] *)
Definition Math_floor (x : Double) : Z :=
  if 0 <=? exponent x then mantissa x * 2 ^ exponent x
  else mantissa x / 2 ^ (- exponent x).

(** [arr[Math.floor(rnd * arr.length)]], [None] standing for [undefined];
    [rnd] is the value [Math.random()] returned. *)
Definition randomIndex (rnd : Double) (len : nat) : Z :=
  Math_floor (Double_times rnd len).

Definition pickRandom {A} (arr : list A) (rnd : Double) : option A :=
  let i := randomIndex rnd (length arr) in
  if i <? 0 then None else arr !! Z.to_nat i.

(** ** The local insight fallback *)

(** [sessionMessages.filter(m => m.role === 'user').map(m => m.content)
      .join(' ').toLowerCase()] *)
Definition conversationTextOf (sessionMessages : list Message.t) : string :=
  toLowerCase
    (join " " (map Message.content
                 (filter (fun m => Message.role m = RoleUser) sessionMessages))).

(** [simulateInsightGeneration]; the result is the [quote] field of the
    object it returns, [None] standing for [undefined]. The one-second
    delay it awaits first has no counterpart here. *)
Definition simulateInsightGeneration
    (sessionMessages : list Message.t) (sessionType : SessionType) (rnd : Double)
  : option string :=
  let conversationText := conversationTextOf sessionMessages in
  if includes conversationText "stress" || includes conversationText "anxious"
     || includes conversationText "overwhelmed" then
    let stressInsights :=
      match sessionType with
      | morning =>
          [ "Your awareness of stress is the first step toward managing it with grace.";
            "Even in challenging moments, you have the strength to find your center.";
            "Today's difficulties are tomorrow's wisdom in disguise." ]
      | evening =>
          [ "You've carried today's challenges with more resilience than you realize.";
            "Stress reveals our capacity for growth and adaptation.";
            "Every difficult day teaches us something valuable about our inner strength." ]
      end in
    pickRandom stressInsights rnd
  else if includes conversationText "grateful" || includes conversationText "happy"
     || includes conversationText "excited" then
    let positiveInsights :=
      match sessionType with
      | morning =>
          [ "Gratitude is the foundation upon which beautiful days are built.";
            "Your positive energy is a gift you give to yourself and the world.";
            "Joy shared in the morning multiplies throughout the day." ]
      | evening =>
          [ "Today's joy is a reminder of life's endless capacity for beauty.";
            "Gratitude transforms ordinary moments into extraordinary memories.";
            "Your appreciation for life's gifts illuminates the path forward." ]
      end in
    pickRandom positiveInsights rnd
  else if includes conversationText "work" || includes conversationText "career"
     || includes conversationText "job" then
    let workInsights :=
      match sessionType with
      | morning =>
          [ "Your work is an expression of your values and talents.";
            "Purpose-driven action creates meaning in even the smallest tasks.";
            "Today's efforts are building tomorrow's opportunities." ]
      | evening =>
          [ "Your professional journey reflects your commitment to growth and contribution.";
            "Work challenges are invitations to discover new aspects of your capabilities.";
            "Balance between effort and rest creates sustainable success." ]
      end in
    pickRandom workInsights rnd
  else
    let generalInsights :=
      match sessionType with
      | morning =>
          [ "Today is a canvas waiting for your unique brushstrokes of intention.";
            "Your awareness of this moment is the first step toward meaningful change.";
            "Small, intentional actions create the foundation for extraordinary days.";
            "You have everything within you to make today beautiful.";
            "Clarity comes not from having all the answers, but from asking the right questions." ]
      | evening =>
          [ "Growth happens in the space between challenge and reflection.";
            "Every experience today was a teacher, even the difficult ones.";
            "You showed up today, and that itself is worthy of celebration.";
            "Tomorrow's possibilities are born from today's insights.";
            "Your journey is uniquely yours, and every step has value." ]
      end in
    pickRandom generalInsights rnd.

(** *** The fallback as the specification words it

    The contents of the user-authored messages, concatenated and
    lower-cased; a category decided by keyword groups in a fixed priority
    order; a pool of quotes for each category and session type; and the
    quote of the pool at the index drawn. *)




Inductive Category := Stress | Positive | Work | General.

Definition stressKeywords : list string := ["stress"; "anxious"; "overwhelmed"].
Definition positiveKeywords : list string := ["grateful"; "happy"; "excited"].
Definition workKeywords : list string := ["work"; "career"; "job"].

Definition mentionsAny (text : string) (keywords : list string) : bool :=
  existsb (includes text) keywords.

Definition spec_category (text : string) : Category :=
  if mentionsAny text stressKeywords then Stress
  else if mentionsAny text positiveKeywords then Positive
  else if mentionsAny text workKeywords then Work
  else General.

Definition spec_pool (cat : Category) (sessionType : SessionType) : list string :=
  match cat, sessionType with
  | Stress, morning =>
      [ "Your awareness of stress is the first step toward managing it with grace.";
        "Even in challenging moments, you have the strength to find your center.";
        "Today's difficulties are tomorrow's wisdom in disguise." ]
  | Stress, evening =>
      [ "You've carried today's challenges with more resilience than you realize.";
        "Stress reveals our capacity for growth and adaptation.";
        "Every difficult day teaches us something valuable about our inner strength." ]
  | Positive, morning =>
      [ "Gratitude is the foundation upon which beautiful days are built.";
        "Your positive energy is a gift you give to yourself and the world.";
        "Joy shared in the morning multiplies throughout the day." ]
  | Positive, evening =>
      [ "Today's joy is a reminder of life's endless capacity for beauty.";
        "Gratitude transforms ordinary moments into extraordinary memories.";
        "Your appreciation for life's gifts illuminates the path forward." ]
  | Work, morning =>
      [ "Your work is an expression of your values and talents.";
        "Purpose-driven action creates meaning in even the smallest tasks.";
        "Today's efforts are building tomorrow's opportunities." ]
  | Work, evening =>
      [ "Your professional journey reflects your commitment to growth and contribution.";
        "Work challenges are invitations to discover new aspects of your capabilities.";
        "Balance between effort and rest creates sustainable success." ]
  | General, morning =>
      [ "Today is a canvas waiting for your unique brushstrokes of intention.";
        "Your awareness of this moment is the first step toward meaningful change.";
        "Small, intentional actions create the foundation for extraordinary days.";
        "You have everything within you to make today beautiful.";
        "Clarity comes not from having all the answers, but from asking the right questions." ]
  | General, evening =>
      [ "Growth happens in the space between challenge and reflection.";
        "Every experience today was a teacher, even the difficult ones.";
        "You showed up today, and that itself is worthy of celebration.";
        "Tomorrow's possibilities are born from today's insights.";
        "Your journey is uniquely yours, and every step has value." ]
  end.

(** ** Inputs of an insight generation

    What the surroundings answer while [generateInsightCard] runs: the
    outcome of the remote insight service, the value of [Math.random()],
    whether the video background is mounted, what [captureFrame] does on the
    main path and on the recovery path, and the clock on each path. *)

Record InsightEnv := {
  remoteInsight : Res string;
  random : Double;
  videoRef : bool;
  captureFrame1 : Res (option string);
  captureFrame2 : Res (option string);
  now1 : Date;
  now2 : Date
}.

(** [x || undefined] on a text or [null]: the empty text is falsy. *)
Definition orUndefined (x : option string) : option string :=
  match x with
  | Some s => if String.eqb s "" then None else Some s
  | None => None
  end.

(** The text of a quote. [Math.random()] lies in [[0, 1)], so the index
    into a pool is in range and the quote is defined; the model maps the
    undefined quote, which does not arise, to the empty text. *)
Definition quoteText (q : option string) : string := default "" q.

(** [updatedSessions.splice(0, updatedSessions.length - 50)] when the list
    is longer than 50. *)
Definition keepRecent50 (updatedSessions : list ArchivedChatSession.t)
  : list ArchivedChatSession.t :=
  if bool_decide (50 < length updatedSessions)%nat
  then drop (length updatedSessions - 50) updatedSessions
  else updatedSessions.

Definition liftRes {A} (res : Res A) : M A := fun w => (res, w).

(** [aiChatService.generateInsightCard]: the request leaves the page; its
    outcome is the quote of the response or an exception. *)
Definition aiChatService_generateInsightCard (response : Res string)
    (msgs : list Message.t) (ty : SessionType) : M string :=
  logEffect (InsightRequest msgs ty);; liftRes response.

(** ** The controller

    Three policies of [utils/timeUtils] are not part of the sources at hand
    and are taken as an interface: the time-of-day policy, the session time
    limit in minutes per tier, and the same-calendar-day test. Each reads
    the wall clock, which is passed to it. *)

Class TimeUtils := {
  getTimeOfDay : Date -> option string -> TimeOfDay;
  getSessionTimeLimit : bool -> Z;
  hasCompletedTodaysSession : Date -> option Date -> bool
}.

(** Of [utils/sceneUtils], likewise absent, the mount effect uses the scene
    a session type starts with. *)
Class SceneUtils := {
  getSceneForSession : SessionType -> NatureScene
}.

Section Controller.

Context {timeUtils : TimeUtils} {sceneUtils : SceneUtils}.

(** *** Values computed by a render *)

Definition timeOfDay (r : Render) : TimeOfDay :=
  getTimeOfDay (clock r) (profileName r).

Definition sessionTimeLimit (r : Render) : Z :=
  getSessionTimeLimit (isPro r).

Definition sessionType (r : Render) : SessionType :=
  if String.eqb (period (timeOfDay r)) "morning" then morning else evening.

Definition hasCompletedBothToday (r : Render) (c : Comp) : bool :=
  match user r with
  | Some _ =>
      hasCompletedTodaysSession (clock r)
        (SessionLimits.lastMorningSession (sessionLimits c)) &&
      hasCompletedTodaysSession (clock r)
        (SessionLimits.lastEveningSession (sessionLimits c))
  | None => false
  end.

Definition isSessionExpired (r : Render) (c : Comp) : bool :=
  negb (isPro r) &&
  match sessionStartTime c with
  | Some start => sessionTimeLimit r * 60 * 1000 <? clock r - start
  | None => false
  end.

(** *** The view a render returns *)

Inductive View := LimitReachedView | ExpiredView | ActiveView.

Definition view (r : Render) (c : Comp) : View :=
  if bool_decide (is_Some (user r)) && negb (isPro r) && hasCompletedBothToday r c
  then LimitReachedView
  else if bool_decide (is_Some (sessionStartTime c)) && isSessionExpired r c
  then ExpiredView
  else ActiveView.

(** *** Effects that follow a render *)

(** The effect that runs when the page mounts and again whenever the tier,
    the user, the guest flag or the session type changes. Its body is five
    loads in a row, given here one by one: the video setting, the scene,
    the session limits, the start time and the transcript. *)

Definition loadVideoSetting (r : Render) : M unit :=
  savedVideoEnabled <- storage_get r "video-background-enabled" (JStr "true");;
  when (notNull savedVideoEnabled) (setVideoEnabled (asFlag savedVideoEnabled)).

Definition loadScene (r : Render) : M unit :=
  savedScene <- storage_get r "current-scene" (JStr "");;
  if negb (String.eqb (asScene savedScene) "")
  then setCurrentScene (asScene savedScene)
  else
    let initialScene := getSceneForSession (sessionType r) in
    setCurrentScene initialScene;;
    storage_set r "current-scene" (JStr initialScene).

(** The stored record is taken over as it is but for [maxMessages], which
    is that of the tier of the render; a visitor gets a fresh record. *)
Definition loadSessionLimits (r : Render) : M unit :=
  if userOrGuest r then
    savedLimits <- storage_get r "session-limits" JNull;;
    match asLimits savedLimits with
    | Some parsed =>
        setSessionLimits
          (SessionLimits.mk
             (SessionLimits.morningCompleted parsed)
             (SessionLimits.eveningCompleted parsed)
             (SessionLimits.messagesUsed parsed)
             (if isPro r then 999 else 4)
             (SessionLimits.lastMorningSession parsed)
             (SessionLimits.lastEveningSession parsed))
    | None => ret tt
    end
  else
    setSessionLimits (SessionLimits.mk false false 0 4 None None).

Definition loadSessionStartTime (r : Render) : M unit :=
  savedStartTime <- storage_get r "session-start-time" JNull;;
  match asDate savedStartTime with
  | Some start => setSessionStartTime (Some start)
  | None => ret tt
  end.

(** A stored transcript that is not empty is restored; otherwise a page
    whose render had no messages gets the greeting. *)
Definition loadMessages (r : Render) (cl : Comp) (now : Date) : M unit :=
  savedMessages <- storage_get r "current-session-messages" JNull;;
  let parsedMessages := asMessages savedMessages in
  if bool_decide (0 < length parsedMessages)%nat
  then setMessages (fun _ => parsedMessages)
  else
    when (bool_decide (length (messages cl) = 0%nat))
      (let greetingMessage :=
         Message.mk "greeting" (greeting (timeOfDay r)) RoleAssistant now in
       setMessages (fun _ => [greetingMessage])).

Definition mountEffect (r : Render) (cl : Comp) (now : Date) : M unit :=
  loadVideoSetting r;;
  loadScene r;;
  loadSessionLimits r;;
  loadSessionStartTime r;;
  loadMessages r cl now.

(** [useEffect(..., [messages])]: save the messages when they change. *)
Definition saveMessagesEffect (r : Render) (cl : Comp) : M unit :=
  when (bool_decide (0 < length (messages cl))%nat)
    (storage_set r "current-session-messages" (JMessages (messages cl))).

(** The auto-start effect. *)
Definition autoStartEffect (r : Render) (cl : Comp) (now : Date) : M unit :=
  when (shouldAutoStart (timeOfDay r)
        && negb (bool_decide (is_Some (sessionStartTime cl)))
        && negb (hasCompletedBothToday r cl) && negb (isSessionExpired r cl))
    (setSessionStartTime (Some now);;
     storage_set r "session-start-time" (JIso now)).

(** *** Handlers

    A handler is a closure of the render that created it: [r] and [cl] are
    the context and the component state of that render. State setters act
    on the current world. *)

Definition saveSessionLimits (r : Render) (limits : SessionLimits.t) : M unit :=
  setSessionLimits limits;;
  when (userOrGuest r) (storage_set r "session-limits" (JLimits limits)).

(** The guard that opens [handleSendMessage]. *)
Definition sendBlocked (r : Render) (cl : Comp) : bool :=
  isLoading cl
  || (negb (isPro r)
      && (SessionLimits.maxMessages (sessionLimits cl)
            <=? SessionLimits.messagesUsed (sessionLimits cl)))
  || isSessionExpired r cl.

Definition apologyText : string :=
  "I'm having trouble connecting right now. Let's try again in a moment.".

(** [aiChatService.sendMessage]: the request leaves the page, and the
    outcome, which is an input, is a reply text or an exception. *)
Definition aiChatService_sendMessage (response : Res string)
    (content : string) (ty : SessionType) (history : list (Role * string))
    (userName : option string) : M string :=
  logEffect (ChatRequest content ty history userName);;
  (fun w => (response, w)).

(** [handleSendMessage(content)]: [now] is the clock before the request,
    [now'] the clock when its outcome [response] arrives. *)
Definition handleSendMessage (r : Render) (cl : Comp)
    (now : Date) (content : string) (response : Res string) (now' : Date) : M unit :=
  if sendBlocked r cl then ret tt else
  when (negb (bool_decide (is_Some (sessionStartTime cl))))
    (setSessionStartTime (Some now);;
     storage_set r "session-start-time" (JIso now));;
  let userMessage := Message.mk (pretty now) content RoleUser now in
  setMessages (fun prev => prev ++ [userMessage]);;
  setIsLoading true;;
  let newMessagesUsed := SessionLimits.messagesUsed (sessionLimits cl) + 1 in
  let newUserMessagesSinceLastInsight := userMessagesSinceLastInsight cl + 1 in
  setUserMessagesSinceLastInsight newUserMessagesSinceLastInsight;;
  saveSessionLimits r
    (SessionLimits.with_messagesUsed newMessagesUsed (sessionLimits cl));;
  when ((Z.rem newUserMessagesSinceLastInsight 5 =? 0)
        && (0 <? newUserMessagesSinceLastInsight))
    (setShowGenerateInsightButton true);;
  tryFinally
    (tryCatch
       (let conversationHistory :=
          map (fun msg => (Message.role msg, Message.content msg))
              (filter (fun msg => Message.id msg ≠ "greeting") (messages cl)) in
        message <- aiChatService_sendMessage response content (sessionType r)
                     conversationHistory (profileName r);;
        let aiMessage := Message.mk (pretty (now' + 1)) message RoleAssistant now' in
        setMessages (fun prev => prev ++ [aiMessage]))
       (fun _ =>
        let errorMessage :=
          Message.mk (pretty (now' + 1)) apologyText RoleAssistant now' in
        setMessages (fun prev => prev ++ [errorMessage])))
    (setIsLoading false).

(** [archiveCurrentSession(sessionId, insightId)] *)
Definition archiveCurrentSession (r : Render) (cl : Comp) (now : Date)
    (sessionId : string) (insightId : option string) : M unit :=
  if negb (bool_decide (is_Some (user r))) || bool_decide (length (messages cl) ≤ 1)%nat
  then ret tt else
  let sessionEndTime := now in
  let sessionDuration :=
    match sessionStartTime cl with
    | Some start => Some (Math_round_div (sessionEndTime - start) (1000 * 60))
    | None => None
    end in
  let archivedSession := {|
    ArchivedChatSession.id := sessionId;
    ArchivedChatSession.type := sessionType r;
    ArchivedChatSession.messages :=
      filter (fun msg => Message.id msg ≠ "greeting") (messages cl);
    ArchivedChatSession.createdAt := default sessionEndTime (sessionStartTime cl);
    ArchivedChatSession.sceneType := currentScene cl;
    ArchivedChatSession.messageCount :=
      length (filter (fun msg => Message.role msg = RoleUser) (messages cl));
    ArchivedChatSession.duration := default 0 sessionDuration;
    ArchivedChatSession.insightCardId := insightId
  |} in
  when (userOrGuest r)
    (existingSessions <- storage_get r "komorebi-chat-sessions" (JSessions []);;
     let updatedSessions := asSessions existingSessions ++ [archivedSession] in
     storage_set r "komorebi-chat-sessions" (JSessions (keepRecent50 updatedSessions))).

(** The part shared by the two paths of [generateInsightCard]: capture a
    still, build the card around [quote], show it, store it, archive. *)
Definition publishInsight (r : Render) (cl : Comp) (videoRefPresent : bool)
    (capture : Res (option string)) (now : Date) (quote : string) : M unit :=
  videoStillUrl <- (if videoEnabled cl && videoRefPresent
                    then liftRes capture else ret None);;
  let insightId := pretty now in
  let sessionId := pretty now in
  let insight := {|
    InsightCard.id := insightId;
    InsightCard.quote := quote;
    InsightCard.type := sessionType r;
    InsightCard.sessionId := sessionId;
    InsightCard.createdAt := now;
    InsightCard.sceneType := currentScene cl;
    InsightCard.videoStillUrl := orUndefined videoStillUrl
  |} in
  setInsightCard (Some insight);;
  when (userOrGuest r)
    (existingInsights <- storage_get r "insight-cards" (JInsights []);;
     let updatedInsights := asInsights existingInsights ++ [insight] in
     storage_set r "insight-cards" (JInsights updatedInsights));;
  archiveCurrentSession r cl now sessionId (Some insightId).

Definition hardcodedQuote (ty : SessionType) : string :=
  match ty with
  | morning =>
      "Every moment is a fresh beginning, and today holds infinite possibilities for growth and joy."
  | evening =>
      "Today's experiences have shaped you in beautiful ways. Rest knowing you've grown through every challenge and triumph."
  end.

(** [generateInsightCard(sessionMessages)] *)
Definition generateInsightCard (r : Render) (cl : Comp) (env : InsightEnv)
    (sessionMessages : list Message.t) : M unit :=
  tryCatch
    (quote <- tryCatch
                (aiChatService_generateInsightCard (remoteInsight env)
                   sessionMessages (sessionType r))
                (fun _ =>
                   ret (quoteText (simulateInsightGeneration sessionMessages
                                     (sessionType r) (random env))));;
     publishInsight r cl (videoRef env) (captureFrame1 env) (now1 env) quote)
    (fun error =>
       tryCatch
         (publishInsight r cl (videoRef env) (captureFrame2 env) (now2 env)
            (hardcodedQuote (sessionType r)))
         (fun _ => throw error)).

(** [handleGenerateInsightClick()] *)
Definition handleGenerateInsightClick (r : Render) (cl : Comp) (env : InsightEnv)
  : M unit :=
  setIsGeneratingInsight true;;
  setShowGenerateInsightButton false;;
  tryFinally
    (tryCatch
       (let sessionMessages :=
          filter (fun msg => Message.id msg ≠ "greeting") (messages cl) in
        generateInsightCard r cl env sessionMessages;;
        setUserMessagesSinceLastInsight 0)
       (fun _ => setShowGenerateInsightButton true))
    (setIsGeneratingInsight false).

(** [handleNewSession()] *)
Definition handleNewSession (r : Render) (cl : Comp) (now : Date) : M unit :=
  when (bool_decide (1 < length (messages cl))%nat)
    (let sessionEndTime := now in
     let sessionDuration :=
       match sessionStartTime cl with
       | Some start => Math_round_div (sessionEndTime - start) (1000 * 60)
       | None => 0
       end in
     let archivedSession := {|
       ArchivedChatSession.id := pretty now;
       ArchivedChatSession.type := sessionType r;
       ArchivedChatSession.messages :=
         filter (fun msg => Message.id msg ≠ "greeting") (messages cl);
       ArchivedChatSession.createdAt := default sessionEndTime (sessionStartTime cl);
       ArchivedChatSession.sceneType := currentScene cl;
       ArchivedChatSession.messageCount :=
         length (filter (fun msg => Message.role msg = RoleUser) (messages cl));
       ArchivedChatSession.duration := sessionDuration;
       ArchivedChatSession.insightCardId := InsightCard.id <$> insightCard cl
     |} in
     when (userOrGuest r)
       (existingSessions <- storage_get r "komorebi-chat-sessions" (JSessions []);;
        let updatedSessions := asSessions existingSessions ++ [archivedSession] in
        storage_set r "komorebi-chat-sessions"
          (JSessions (keepRecent50 updatedSessions)));;
     let updatedLimits :=
       match sessionType r with
       | morning => SessionLimits.with_lastMorningSession now
       | evening => SessionLimits.with_lastEveningSession now
       end (SessionLimits.with_messagesUsed 0 (sessionLimits cl)) in
     saveSessionLimits r updatedLimits);;
  let greetingMessage :=
    Message.mk "greeting" (greeting (timeOfDay r)) RoleAssistant now in
  setMessages (fun _ => [greetingMessage]);;
  setInsightCard None;;
  setUserMessagesSinceLastInsight 0;;
  setShowGenerateInsightButton false;;
  let startTime := now in
  setSessionStartTime (Some startTime);;
  localStorage_setItem "session-start-time" startTime;;
  storage_set r "current-session-messages" JNull;;
  saveSessionLimits r (SessionLimits.with_messagesUsed 0 (sessionLimits cl)).

End Controller.

(** A sample time policy, for evaluating the controller on concrete inputs:
    mornings last until noon UTC, a free session lasts 15 minutes and a paid
    one 60, and two instants are on the same day when they fall in the same
    UTC day. *)
Definition sampleTimeUtils : TimeUtils := {|
  getTimeOfDay now userName :=
    if (now `mod` 86400000 <? 43200000)
    then {| period := "morning"; greeting := "Good morning"; shouldAutoStart := true |}
    else {| period := "evening"; greeting := "Good evening"; shouldAutoStart := true |};
  getSessionTimeLimit isPro := if isPro then 60 else 15;
  hasCompletedTodaysSession now last :=
    match last with
    | Some t => t `div` 86400000 =? now `div` 86400000
    | None => false
    end
|}.

(** A sample scene policy. *)
Definition sampleSceneUtils : SceneUtils := {|
  getSceneForSession ty :=
    match ty with morning => "sunrise" | evening => "sunset" end
|}.

(** ** Runs of the controller

    Between two events the page re-renders, so each handler and each effect
    runs as the closure of the current state. The render context may change
    from one event to the next. The events are the handlers and effects
    that bear on the session; the scene and video controls, which touch
    only the scene, the video flag and their two keys, are not among
    them. *)

Inductive Event :=
| SendMessage (now : Date) (content : string) (response : Res string) (now' : Date)
| GenerateInsight (env : InsightEnv)
| NewSession (now : Date)
| SaveMessages
| AutoStart (now : Date)
| Mount (now : Date).

Definition dispatch {timeUtils : TimeUtils} {sceneUtils : SceneUtils}
    (r : Render) (ev : Event) (w : World) : World :=
  match ev with
  | SendMessage now content response now' =>
      exec (handleSendMessage r (comp w) now content response now') w
  | GenerateInsight env => exec (handleGenerateInsightClick r (comp w) env) w
  | NewSession now => exec (handleNewSession r (comp w) now) w
  | SaveMessages => exec (saveMessagesEffect r (comp w)) w
  | AutoStart now => exec (autoStartEffect r (comp w) now) w
  | Mount now => exec (mountEffect r (comp w) now) w
  end.

Fixpoint run {timeUtils : TimeUtils} {sceneUtils : SceneUtils}
    (evs : list (Render * Event)) (w : World) : World :=
  match evs with
  | [] => w
  | (r, ev) :: evs' => run evs' (dispatch r ev w)
  end.

(** ** The stored procedure [complete_chat_session]

    Tables are lists of rows, SQL values are options ([None] is NULL), and
    the procedure is a function from the database to an outcome and a
    database. An exception that leaves the procedure undoes what it wrote. *)

Module Backend.

Abbreviation uuid := N (only parsing).

Module chat_sessions.
Record row := mk {
  id : uuid;
  user_id : option uuid;
  type : option string;
  created_at : option Date;
  completed_at : option Date;
  completed : option bool;
  duration : option Z;
  scene_type : option string;
  message_count : option Z;
  insight_id : option uuid
}.

(** The columns the migration refers to. *)
Definition columns : list string :=
  ["id"; "user_id"; "type"; "created_at"; "completed_at"; "completed";
   "duration"; "scene_type"; "message_count"; "insight_id"].
End chat_sessions.

Module insights.
Record row := mk {
  id : uuid;
  session_id : option uuid;
  quote : option string;
  type : option string;
  scene_type : option string;
  is_pinned : option bool
}.
End insights.

Record Db := {
  chat_sessions_table : list chat_sessions.row;
  insights_table : list insights.row
}.

(** *** Three-valued logic *)

Definition sql_eq (a b : option uuid) : option bool :=
  match a, b with
  | Some x, Some y => Some (x =? y)%N
  | _, _ => None
  end.

Definition sql_ne (a b : option uuid) : option bool :=
  negb <$> sql_eq a b.

Definition sql_is_null {A} (a : option A) : option bool :=
  Some (bool_decide (a = None)).

Definition sql_or (a b : option bool) : option bool :=
  match a, b with
  | Some true, _ | _, Some true => Some true
  | Some false, Some false => Some false
  | _, _ => None
  end.

(** [IF c THEN]: the branch is taken only when [c] is true. *)
Definition sql_holds (c : option bool) : bool :=
  match c with Some true => true | _ => false end.

(** *** Names inside an SQL statement of a PL/pgSQL body

    A name in an expression of an embedded SQL statement may denote a
    variable of the procedure, a column of the tables of the statement, or
    both. The setting [plpgsql.variable_conflict] decides the last case; the
    procedure carries no [#variable_conflict] directive, so the setting of
    the database applies, whose default is [error]. *)

Inductive variable_conflict := conflict_error | use_variable | use_column.

Inductive Resolution := IsVariable | IsColumn | Ambiguous | Unknown.

(** Parameters and declared variables of [complete_chat_session]. *)
Definition variables : list string :=
  ["session_id"; "insight_quote"; "scene_type";
   "user_id"; "session_type"; "insight_id"; "result"].

Definition resolve (mode : variable_conflict) (tableColumns : list string)
    (name : string) : Resolution :=
  match bool_decide (name ∈ variables), bool_decide (name ∈ tableColumns) with
  | true, true =>
      match mode with
      | conflict_error => Ambiguous
      | use_variable => IsVariable
      | use_column => IsColumn
      end
  | true, false => IsVariable
  | false, true => IsColumn
  | false, false => Unknown
  end.

(** *** Results *)

Inductive JsonValue :=
| JsonBool (b : bool)
| JsonUuid (u : option uuid).

Definition notAuthorized : string := "Session not found or not authorized".
Definition doubleQuote : string := String (ascii_of_nat 34) EmptyString.
Definition ambiguousColumn (name : string) : string :=
  "column reference " +:+ doubleQuote +:+ name +:+ doubleQuote +:+ " is ambiguous".

(** [SELECT cs.user_id, cs.type INTO user_id, session_type
     FROM chat_sessions cs WHERE cs.id = session_id]: the first row that
    matches, or NULLs when none does. *)
Definition select_owner_and_type (db : Db) (session_id : option uuid)
  : option uuid * option string :=
  match filter (fun cs => sql_holds (sql_eq (Some (chat_sessions.id cs)) session_id) = true)
               (chat_sessions_table db) with
  | cs :: _ => (chat_sessions.user_id cs, chat_sessions.type cs)
  | [] => (None, None)
  end.

(** [UPDATE chat_sessions SET completed = true, completed_at = now(),
     insight_id = <value> WHERE id = session_id], where [value] gives the
    right-hand side of the last assignment for each row. *)
Definition update_completed (now : Date) (value : chat_sessions.row -> option uuid)
    (session_id : option uuid) (table : list chat_sessions.row)
  : list chat_sessions.row :=
  map (fun cs =>
         if sql_holds (sql_eq (Some (chat_sessions.id cs)) session_id)
         then chat_sessions.mk
                (chat_sessions.id cs) (chat_sessions.user_id cs)
                (chat_sessions.type cs) (chat_sessions.created_at cs)
                (Some now) (Some true)
                (chat_sessions.duration cs) (chat_sessions.scene_type cs)
                (chat_sessions.message_count cs) (value cs)
         else cs)
      table.

(** [complete_chat_session(session_id, insight_quote, scene_type)], called
    by the identity [auth_uid] at time [now]; [new_id] and [pinned] are the
    defaults the [insights] table gives the columns the INSERT leaves out. *)
Definition complete_chat_session (mode : variable_conflict)
    (auth_uid : option uuid) (now : Date) (new_id : uuid) (pinned : option bool)
    (session_id : option uuid) (insight_quote scene_type : option string)
    (db : Db) : Res (list (string * JsonValue)) * Db :=
  let '(user_id, session_type) := select_owner_and_type db session_id in
  if sql_holds (sql_or (sql_is_null user_id) (sql_ne user_id auth_uid))
  then (Thrown notAuthorized, db) else
  let inserted :=
    insights.mk new_id session_id insight_quote session_type scene_type pinned in
  let insight_id := Some new_id in
  let db1 := {| chat_sessions_table := chat_sessions_table db;
                insights_table := insights_table db ++ [inserted] |} in
  match resolve mode chat_sessions.columns "insight_id",
        resolve mode chat_sessions.columns "session_id" with
  | IsVariable, IsVariable =>
      let db2 := {| chat_sessions_table :=
                      update_completed now (fun _ => insight_id) session_id
                        (chat_sessions_table db1);
                    insights_table := insights_table db1 |} in
      (Ok [("success", JsonBool true);
           ("insight_id", JsonUuid insight_id);
           ("session_id", JsonUuid session_id)], db2)
  | IsColumn, IsVariable =>
      let db2 := {| chat_sessions_table :=
                      update_completed now chat_sessions.insight_id session_id
                        (chat_sessions_table db1);
                    insights_table := insights_table db1 |} in
      (Ok [("success", JsonBool true);
           ("insight_id", JsonUuid insight_id);
           ("session_id", JsonUuid session_id)], db2)
  | Ambiguous, _ => (Thrown (ambiguousColumn "insight_id"), db)
  | _, _ => (Thrown "column does not exist", db)
  end.

End Backend.

(** ** Vocabulary of the properties *)

(** [preserves f m]: running [m] does not change the observation [f] of the
    world, whether [m] returns or throws. *)
Definition preserves {A X} (f : World -> X) (m : M A) : Prop :=
  forall w, f (snd (m w)) = f w.

(** The limits record in component state. *)
Definition limitsOf (w : World) : SessionLimits.t := sessionLimits (comp w).




(** The limits record the mount effect leaves in state: for a registered
    user or a guest the stored record, when there is one, with the
    [maxMessages] of the tier; for a visitor a fresh record. *)
Definition loadedLimits (r : Render) (w : World) : SessionLimits.t :=
  if userOrGuest r then
    match asLimits (getItem (storeOf (scopeOf r) w) "session-limits" JNull) with
    | Some parsed =>
        SessionLimits.mk
          (SessionLimits.morningCompleted parsed)
          (SessionLimits.eveningCompleted parsed)
          (SessionLimits.messagesUsed parsed)
          (if isPro r then 999 else 4)
          (SessionLimits.lastMorningSession parsed)
          (SessionLimits.lastEveningSession parsed)
    | None => sessionLimits (comp w)
    end
  else SessionLimits.mk false false 0 4 None None.

(** The condition under which the limit-reached view is shown, as the
    specification words it: a registered user, on the non-paid tier, with
    both the morning and the evening session completed today. *)
Definition limitReachedCondition `{TimeUtils} (r : Render) (c : Comp) : bool :=
  bool_decide (is_Some (user r)) && negb (isPro r)
  && hasCompletedTodaysSession (clock r)
       (SessionLimits.lastMorningSession (sessionLimits c))
  && hasCompletedTodaysSession (clock r)
       (SessionLimits.lastEveningSession (sessionLimits c)).

Definition isThrown {A} (res : Res A) : bool :=
  match res with Thrown _ => true | Ok _ => false end.

(** [generateInsightCard] throws exactly when a still is to be captured and
    [captureFrame] throws on the main path and again on the recovery path. *)
Definition generationFails (cl : Comp) (env : InsightEnv) : bool :=
  videoEnabled cl && videoRef env
  && isThrown (captureFrame1 env) && isThrown (captureFrame2 env).

(** The new counter of a send is a positive multiple of five. *)
Definition fifthMessage (n : Z) : bool := (Z.rem n 5 =? 0) && (0 <? n).

(** *** Sample inputs *)

Definition freeProfile : Profile := {| name := Some "Ann"; is_pro := false |}.

Definition registeredFree (now : Date) : Render :=
  {| user := Some "user-1"; profile := Some freeProfile; isGuest := false; clock := now |}.

Definition guestFree (now : Date) : Render :=
  {| user := None; profile := None; isGuest := true; clock := now |}.

Definition visitor (now : Date) : Render :=
  {| user := None; profile := None; isGuest := false; clock := now |}.

Definition greetingAt (now : Date) : Message.t :=
  Message.mk "greeting" "Good morning" RoleAssistant now.

(** A freshly mounted page: the greeting only. *)
Definition freshWorld (r : Render) : World :=
  {| comp := {| messages := [greetingAt 0];
                isLoading := false; insightCard := None; sessionStartTime := None;
                currentScene := "ocean"; videoEnabled := true;
                userMessagesSinceLastInsight := 0;
                showGenerateInsightButton := false;
                isGeneratingInsight := false; showControls := false;
                sessionLimits :=
                  SessionLimits.mk false false 0 (if isPro r then 999 else 4) None None |};
     localStorage := ∅; sessionStorage := ∅; effects := [] |}.

(** Sends at one-second steps, each answered half a second later. *)
Fixpoint sends (r : Date -> Render) (n : nat) (now : Date) : list (Render * Event) :=
  match n with
  | O => []
  | S n' => (r now, SendMessage now "hello" (Ok "hi") (now + 500))
            :: sends r n' (now + 1000)
  end.

Definition offerFlag (w : World) : bool := showGenerateInsightButton (comp w).
Definition insightCounter (w : World) : Z := userMessagesSinceLastInsight (comp w).

Definition proProfile : Profile := {| name := Some "Bea"; is_pro := true |}.

Definition registeredPro (now : Date) : Render :=
  {| user := Some "user-2"; profile := Some proProfile; isGuest := false; clock := now |}.



(** A world in which the offer is showing after five messages. *)
Definition offeredWorld : World :=
  run (timeUtils := sampleTimeUtils) (sceneUtils := sampleSceneUtils)
    (sends registeredPro 5 1000)
    {| comp := comp (freshWorld (registeredFree 0));
       localStorage := ∅; sessionStorage := ∅; effects := [] |}.

(** Sample draws of [Math.random()]: 0, 0.5, 0.25, 0.75, 0.875,
    0.3333333333333333 and 0.6666666666666666. *)
Definition draw_zero : Double := {| mantissa := 0; exponent := -53 |}.
Definition draw_half : Double := {| mantissa := 2 ^ 52; exponent := -53 |}.
Definition draw_third : Double :=
  {| mantissa := 6004799503160661; exponent := -54 |}.

(** The surroundings of an insight generation in which everything works,
    and one in which the frame capture throws on both paths. *)
Definition calmEnv (now : Date) : InsightEnv :=
  {| remoteInsight := Ok "A remote quote."; random := draw_zero; videoRef := true;
     captureFrame1 := Ok (Some "data:image/png;base64,AAAA");
     captureFrame2 := Ok None; now1 := now; now2 := now |}.

Definition brokenCaptureEnv (now : Date) : InsightEnv :=
  {| remoteInsight := Ok "A remote quote."; random := draw_zero; videoRef := true;
     captureFrame1 := Thrown "capture failed";
     captureFrame2 := Thrown "capture failed"; now1 := now; now2 := now |}.

(** The record the new-session action builds for the session it closes. *)
Definition outgoingSession `{TimeUtils} (r : Render) (cl : Comp) (now : Date)
  : ArchivedChatSession.t := {|
  ArchivedChatSession.id := pretty now;
  ArchivedChatSession.type := sessionType r;
  ArchivedChatSession.messages :=
    filter (fun msg => Message.id msg ≠ "greeting") (messages cl);
  ArchivedChatSession.createdAt := default now (sessionStartTime cl);
  ArchivedChatSession.sceneType := currentScene cl;
  ArchivedChatSession.messageCount :=
    length (filter (fun msg => Message.role msg = RoleUser) (messages cl));
  ArchivedChatSession.duration :=
    match sessionStartTime cl with
    | Some start => Math_round_div (now - start) (1000 * 60)
    | None => 0
    end;
  ArchivedChatSession.insightCardId := InsightCard.id <$> insightCard cl
|}.

(** The archive list an identity's storage area holds. *)
Definition archiveOf (st : gmap string Item) : list ArchivedChatSession.t :=
  asSessions (getItem st "komorebi-chat-sessions" (JSessions [])).

(** Worlds in which one message was sent and answered. *)
Definition chatted (r : Date -> Render) : World :=
  run (timeUtils := sampleTimeUtils) (sceneUtils := sampleSceneUtils)
    (sends r 1 1000) (freshWorld (r 0)).

(** A view-state sample: a session started at the epoch, with both daily
    sessions recorded on the day of the epoch. *)
Definition bothDoneComp : Comp :=
  {| messages := [greetingAt 0];
     isLoading := false; insightCard := None; sessionStartTime := Some 0;
     currentScene := "ocean"; videoEnabled := true;
     userMessagesSinceLastInsight := 0; showGenerateInsightButton := false;
     isGeneratingInsight := false; showControls := false;
     sessionLimits := SessionLimits.mk true true 0 4 (Some 1000) (Some 2000) |}.

(** A list of archived sessions in the order of their [createdAt]. *)
Definition ascendingByCreatedAt (l : list ArchivedChatSession.t) : Prop :=
  forall i j a b,
    (i <= j)%nat -> l !! i = Some a -> l !! j = Some b ->
    ArchivedChatSession.createdAt a <= ArchivedChatSession.createdAt b.

(** The entries [keepRecent50] removes: the front of the list. *)
Definition evicted (l : list ArchivedChatSession.t) : list ArchivedChatSession.t :=
  take (length l - 50) l.

(** The record the insight path archives. *)
Definition insightSession `{TimeUtils} (r : Render) (cl : Comp) (now : Date)
    (sessionId : string) (insightId : option string) : ArchivedChatSession.t := {|
  ArchivedChatSession.id := sessionId;
  ArchivedChatSession.type := sessionType r;
  ArchivedChatSession.messages :=
    filter (fun msg => Message.id msg ≠ "greeting") (messages cl);
  ArchivedChatSession.createdAt := default now (sessionStartTime cl);
  ArchivedChatSession.sceneType := currentScene cl;
  ArchivedChatSession.messageCount :=
    length (filter (fun msg => Message.role msg = RoleUser) (messages cl));
  ArchivedChatSession.duration :=
    match sessionStartTime cl with
    | Some start => Math_round_div (now - start) (1000 * 60)
    | None => 0
    end;
  ArchivedChatSession.insightCardId := insightId
|}.

(** An archived session of a given identifier and creation time. *)
Definition pastSession (sessionId : string) (created : Date) : ArchivedChatSession.t :=
  ArchivedChatSession.mk sessionId morning [] created "ocean" 1 0 None.

(** A guest's page whose archive is full, the oldest entry being the one
    created last: a reload restored an older start time from
    [sessionStorage], which the new-session action never updates, so later
    archives carry earlier creation times. *)
Definition fullArchiveWorld : World :=
  let w := chatted guestFree in
  {| comp := comp w;
     localStorage := localStorage w;
     sessionStorage :=
       <["komorebi-chat-sessions" :=
           Json (JSessions (pastSession "late" 900 :: replicate 49 (pastSession "early" 100)))]>
         (sessionStorage w);
     effects := effects w |}.

(** The insight card on show. *)
Definition cardOf (w : World) : option InsightCard.t := insightCard (comp w).

(** A transcript that mentions work and, in capitals, stress. *)
Definition stressedTranscript : list Message.t :=
  [ Message.mk "greeting" "Good evening" RoleAssistant 0;
    Message.mk "1000" "So much WORK today" RoleUser 1000;
    Message.mk "1501" "Tell me about work stress" RoleAssistant 1500;
    Message.mk "2000" "I feel STRESS" RoleUser 2000 ].


(** *** Sample database *)

(** A morning session 1 owned by user 7, and an evening session 2 owned by
    user 8; no insights yet. *)
Definition sampleDb : Backend.Db := {|
  Backend.chat_sessions_table :=
    [ Backend.chat_sessions.mk 1%N (Some 7%N) (Some "morning") (Some 1000)
        None (Some false) None (Some "ocean") (Some 3) None;
      Backend.chat_sessions.mk 2%N (Some 8%N) (Some "evening") (Some 2000)
        None (Some false) None (Some "forest") (Some 5) None ];
  Backend.insights_table := []
|}.

(** The owner the procedure reads for a session. *)
Definition ownerOf (db : Backend.Db) (session_id : option N) : option N :=
  fst (Backend.select_owner_and_type db session_id).

(** ** Further handlers of the page *)

(** [JSON.stringify(b)] for a boolean. *)
Definition JSON_stringify_bool (b : bool) : string :=
  if b then "true" else "false".

(** [toggleVideoBackground()] *)
Definition toggleVideoBackground (r : Render) (cl : Comp) : M unit :=
  let newVideoEnabled := negb (videoEnabled cl) in
  setVideoEnabled newVideoEnabled;;
  storage_set r "video-background-enabled" (JStr (JSON_stringify_bool newVideoEnabled)).

(** The scene [handleRandomScene] draws: of the scenes available for the
    session type, [getAllScenesForSession(sessionType)], one that is not
    the current scene; [None] stands for [undefined]. *)
Definition randomSceneChoice (availableScenes : list NatureScene)
    (currentScene : NatureScene) (rnd : Double) : option NatureScene :=
  let otherScenes := filter (fun scene => scene ≠ currentScene) availableScenes in
  pickRandom otherScenes rnd.

(** ** Observations used by the further properties *)

(** The chat requests among the effects, in order. *)
Definition isChatRequest (e : Effect) : bool :=
  match e with ChatRequest _ _ _ _ => true | _ => false end.

Definition chatRequests (es : list Effect) : list Effect :=
  filter (fun e => isChatRequest e = true) es.

(** The keys under which the controller persists a user's data. *)
Definition personalKeys : list string :=
  ["session-limits"; "komorebi-chat-sessions"; "insight-cards"].

(** What both storage areas hold under a key. *)
Definition stored (key : string) (w : World) : option Item * option Item :=
  (localStorage w !! key, sessionStorage w !! key).



Definition isSendMessage (ev : Event) : bool :=
  match ev with SendMessage _ _ _ _ => true | _ => false end.

(** A registered paid user's page after one exchange. *)
Definition chattedPro : World := chatted registeredPro.

(** What an insight generation leaves of the page apart from the card. *)
Definition sessionOf (w : World) : list Message.t * option Date * NatureScene :=
  (messages (comp w), sessionStartTime (comp w), currentScene (comp w)).

(** The limits record a storage area holds is the one in state. *)
Definition limitsInSync (sc : Scope) (w : World) : Prop :=
  storeOf sc w !! "session-limits" = Some (Json (JLimits (sessionLimits (comp w)))).

(** [maxMessages] of a tier. *)
Definition tierCap (paid : bool) : Z := if paid then 999 else 4.

(** A reload of the page: the component state starts over, both storage
    areas stay. *)
Definition reload (r : Render) (w : World) : World :=
  {| comp := initialComp r; localStorage := localStorage w;
     sessionStorage := sessionStorage w; effects := effects w |}.

(** * Properties *)

(** ** Frame reasoning *)

Lemma preserves_ret {A X} (f : World -> X) (a : A) : preserves f (ret a).
Proof. intros w. reflexivity. Qed.

Lemma preserves_throw {A X} (f : World -> X) e : preserves f (@throw A e).
Proof. intros w. reflexivity. Qed.

Lemma preserves_liftRes {A X} (f : World -> X) (res : Res A) :
  preserves f (liftRes res).
Proof. intros w. reflexivity. Qed.

Lemma preserves_bind {A B X} (f : World -> X) (m : M A) (k : A -> M B) :
  preserves f m -> (forall a, preserves f (k a)) -> preserves f (bind m k).
Proof.
  intros Hm Hk w. unfold bind. specialize (Hm w).
  destruct (m w) as [[a|e] w1]; simpl in *.
  - rewrite Hk. exact Hm.
  - exact Hm.
Qed.

Lemma preserves_tryCatch {A X} (f : World -> X) (m : M A) (h : string -> M A) :
  preserves f m -> (forall e, preserves f (h e)) -> preserves f (tryCatch m h).
Proof.
  intros Hm Hh w. unfold tryCatch. specialize (Hm w).
  destruct (m w) as [[a|e] w1]; simpl in *.
  - exact Hm.
  - rewrite Hh. exact Hm.
Qed.

Lemma preserves_tryFinally {A X} (f : World -> X) (m : M A) (fin : M unit) :
  preserves f m -> preserves f fin -> preserves f (tryFinally m fin).
Proof.
  intros Hm Hf w. unfold tryFinally. specialize (Hm w).
  destruct (m w) as [res w1]. specialize (Hf w1).
  destruct (fin w1) as [[[]|e] w2]; simpl in *; congruence.
Qed.

Lemma preserves_when {X} (f : World -> X) (b : bool) (m : M unit) :
  preserves f m -> preserves f (when b m).
Proof. intros Hm. destruct b; [exact Hm | apply preserves_ret]. Qed.

(** Walks down a handler, leaving the primitive steps to [leaf]. *)
Ltac frame_with leaf :=
  repeat first
    [ solve [leaf]
    | apply preserves_ret
    | apply preserves_throw
    | apply preserves_liftRes
    | apply preserves_bind; [| intros ?]
    | apply preserves_tryCatch; [| intros ?]
    | apply preserves_tryFinally
    | apply preserves_when
    | match goal with
      | |- preserves _ (if ?b then _ else _) => destruct b
      | |- preserves _ (match ?x with _ => _ end) => destruct x
      end ].

Ltac by_computation := intros ?; reflexivity.


(** *** Frames for what storage holds *)

Lemma writeItem_stored_other sc k it key :
  k <> key -> preserves (stored key) (writeItem sc k it).
Proof.
  intros Hne w. unfold stored, writeItem. cbn [snd localStorage sessionStorage].
  destruct sc; rewrite lookup_insert_ne by exact Hne; reflexivity.
Qed.

(** Walks down an unfolded handler by the shape of its head; the primitive
    steps either leave the storage alone or write another key. *)
Ltac frame_stored_step :=
  lazymatch goal with
  | |- preserves _ (ret _) => apply preserves_ret
  | |- preserves _ (throw _) => apply preserves_throw
  | |- preserves _ (liftRes _) => apply preserves_liftRes
  | |- preserves _ (writeItem _ _ _) =>
      apply writeItem_stored_other; first [discriminate | congruence]
  | |- preserves _ (bind _ _) => apply preserves_bind; [| intros ?]
  | |- preserves _ (tryCatch _ _) => apply preserves_tryCatch; [| intros ?]
  | |- preserves _ (tryFinally _ _) => apply preserves_tryFinally
  | |- preserves _ (when false _) => apply preserves_ret
  | |- preserves _ (when _ _) => apply preserves_when
  | |- preserves _ (fun _ => _) => by_computation
  | |- preserves _ (if ?b then _ else _) => destruct b
  | |- preserves _ (match ?x with _ => _ end) => destruct x
  | |- preserves _ (modifyComp _) => by_computation
  | |- preserves _ (setMessages _) => by_computation
  | |- preserves _ (setIsLoading _) => by_computation
  | |- preserves _ (setInsightCard _) => by_computation
  | |- preserves _ (setSessionStartTime _) => by_computation
  | |- preserves _ (setCurrentScene _) => by_computation
  | |- preserves _ (setVideoEnabled _) => by_computation
  | |- preserves _ (setUserMessagesSinceLastInsight _) => by_computation
  | |- preserves _ (setShowGenerateInsightButton _) => by_computation
  | |- preserves _ (setIsGeneratingInsight _) => by_computation
  | |- preserves _ (setSessionLimits _) => by_computation
  | |- preserves _ (logEffect _) => by_computation
  | |- preserves _ (storage_get _ _ _) => by_computation
  | |- preserves _ _ => progress cbv beta zeta
  end.

Ltac frame_stored := repeat frame_stored_step.

Lemma stored_storeOf key sc w w' :
  stored key w' = stored key w -> storeOf sc w' !! key = storeOf sc w !! key.
Proof. unfold stored. intros [=Hl Hs]. destruct sc; assumption. Qed.

Lemma bind_returns {B} (m : M unit) (k : unit -> M B) w :
  fst (m w) = Ok tt -> bind m k w = k tt (snd (m w)).
Proof.
  unfold bind. destruct (m w) as [[[]|e] w']; cbn [fst snd];
    [reflexivity | discriminate].
Qed.



Section ControllerFacts.

Context {timeUtils : TimeUtils} {sceneUtils : SceneUtils}.

Lemma archiveCurrentSession_limits r cl now sid iid :
  preserves limitsOf (archiveCurrentSession r cl now sid iid).
Proof. unfold archiveCurrentSession. frame_with by_computation. Qed.

Lemma publishInsight_limits r cl vr cap now q :
  preserves limitsOf (publishInsight r cl vr cap now q).
Proof.
  unfold publishInsight.
  frame_with ltac:(first [by_computation | apply archiveCurrentSession_limits]).
Qed.

Lemma generateInsightCard_limits r cl env msgs :
  preserves limitsOf (generateInsightCard r cl env msgs).
Proof.
  unfold generateInsightCard, aiChatService_generateInsightCard.
  frame_with ltac:(first [by_computation | apply publishInsight_limits]).
Qed.

Lemma handleGenerateInsightClick_limits r cl env :
  preserves limitsOf (handleGenerateInsightClick r cl env).
Proof.
  unfold handleGenerateInsightClick.
  frame_with ltac:(first [by_computation | apply generateInsightCard_limits]).
Qed.

Lemma insight_limits_stored r cl env :
  preserves (stored "session-limits") (handleGenerateInsightClick r cl env).
Proof.
  unfold handleGenerateInsightClick, generateInsightCard,
    aiChatService_generateInsightCard, publishInsight, archiveCurrentSession,
    storage_set.
  frame_stored.
Qed.

Lemma effects_limits_stored r cl now :
  preserves (stored "session-limits") (saveMessagesEffect r cl)
  /\ preserves (stored "session-limits") (autoStartEffect r cl now).
Proof.
  unfold saveMessagesEffect, autoStartEffect, storage_set. split; frame_stored.
Qed.

(** *** The send gate *)

Lemma send_blocked_noop r cl now content response now' w :
  sendBlocked r cl = true ->
  handleSendMessage r cl now content response now' w = (Ok tt, w).
Proof. intros Hb. unfold handleSendMessage. rewrite Hb. reflexivity. Qed.

(** What a send that passes the gate leaves in the limits record. *)
Lemma send_limits r cl now content response now' w :
  sendBlocked r cl = false ->
  limitsOf (exec (handleSendMessage r cl now content response now') w)
  = SessionLimits.with_messagesUsed
      (SessionLimits.messagesUsed (sessionLimits cl) + 1) (sessionLimits cl).
Proof.
  intros Hb. unfold handleSendMessage, exec. rewrite Hb.
  unfold saveSessionLimits, aiChatService_sendMessage.
  destruct (bool_decide (is_Some (sessionStartTime cl))), (userOrGuest r),
    (_ && _), response; reflexivity.
Qed.


(** What a send that passes the gate does to the transcript, the counter
    and the offer flag, whatever the chat service answers. *)
Lemma send_unblocked r cl now content response now' w :
  sendBlocked r cl = false ->
  let res := handleSendMessage r cl now content response now' w in
  let reply :=
    match response with
    | Ok message => message
    | Thrown _ => apologyText
    end in
  fst res = Ok tt
  /\ messages (comp (snd res))
     = messages (comp w)
       ++ [Message.mk (pretty now) content RoleUser now;
           Message.mk (pretty (now' + 1)) reply RoleAssistant now']
  /\ isLoading (comp (snd res)) = false
  /\ userMessagesSinceLastInsight (comp (snd res))
     = userMessagesSinceLastInsight cl + 1
  /\ showGenerateInsightButton (comp (snd res))
     = fifthMessage (userMessagesSinceLastInsight cl + 1)
       || showGenerateInsightButton (comp w)
  /\ (exists earlier,
        effects (snd res)
        = earlier
          ++ [ChatRequest content (sessionType r)
                (map (fun msg => (Message.role msg, Message.content msg))
                   (filter (fun msg => Message.id msg ≠ "greeting") (messages cl)))
                (profileName r)]).
Proof.
  intros Hb. unfold handleSendMessage. rewrite Hb.
  unfold saveSessionLimits, aiChatService_sendMessage, fifthMessage.
  assert (Hsnoc : forall (l : list Message.t) a b, l ++ [a; b] = (l ++ [a]) ++ [b])
    by (intros; rewrite <- app_assoc; reflexivity).
  rewrite Hsnoc. clear Hsnoc.
  destruct (bool_decide (is_Some (sessionStartTime cl))), (userOrGuest r),
    (_ && _), response;
    (split; [reflexivity|]); (split; [reflexivity|]); (split; [reflexivity|]);
    (split; [reflexivity|]); (split; [reflexivity|]);
    cbn -[pretty]; eexists; reflexivity.
Qed.



(** *** The new-session action and the limits *)

Lemma newSession_limits r cl now w :
  limitsOf (exec (handleNewSession r cl now) w)
  = SessionLimits.with_messagesUsed 0 (sessionLimits cl).
Proof.
  unfold handleNewSession, exec, saveSessionLimits.
  destruct (bool_decide (1 < length (messages cl))%nat), (userOrGuest r),
    (sessionType r); reflexivity.
Qed.


Lemma send_limits_stored r cl now content response now' w :
  sendBlocked r cl = false -> userOrGuest r = true ->
  storeOf (scopeOf r) (exec (handleSendMessage r cl now content response now') w)
    !! "session-limits"
  = Some (Json (JLimits
       (SessionLimits.with_messagesUsed
          (SessionLimits.messagesUsed (sessionLimits cl) + 1) (sessionLimits cl)))).
Proof.
  intros Hb Hug. unfold handleSendMessage, exec. rewrite Hb.
  unfold saveSessionLimits, aiChatService_sendMessage, storage_set, scopeOf.
  rewrite Hug.
  destruct (bool_decide (is_Some (sessionStartTime cl))), (user r), (_ && _),
    response; cbn -[pretty]; rewrite lookup_insert_eq; reflexivity.
Qed.

Lemma newSession_limits_stored r cl now w :
  userOrGuest r = true ->
  storeOf (scopeOf r) (exec (handleNewSession r cl now) w) !! "session-limits"
  = Some (Json (JLimits (SessionLimits.with_messagesUsed 0 (sessionLimits cl)))).
Proof.
  intros Hug. unfold handleNewSession, exec, saveSessionLimits, storage_get,
    storage_set, scopeOf.
  rewrite Hug.
  destruct (bool_decide (1 < length (messages cl))%nat), (user r), (sessionType r);
    cbn -[pretty Math_round_div keepRecent50]; rewrite lookup_insert_eq; reflexivity.
Qed.

(** *** The mount effect *)

Lemma loadVideoSetting_returns r w : fst (loadVideoSetting r w) = Ok tt.
Proof.
  unfold loadVideoSetting, bind, storage_get. cbv beta iota.
  destruct (notNull _); reflexivity.
Qed.

Lemma loadScene_returns r w : fst (loadScene r w) = Ok tt.
Proof.
  unfold loadScene, bind, storage_get. cbv beta iota.
  destruct (negb _); reflexivity.
Qed.

Lemma loadSessionLimits_returns r w : fst (loadSessionLimits r w) = Ok tt.
Proof.
  unfold loadSessionLimits, bind, storage_get.
  destruct (userOrGuest r); [|reflexivity]. cbv beta iota.
  destruct (asLimits _); reflexivity.
Qed.

Lemma loadSessionLimits_limits r w :
  limitsOf (snd (loadSessionLimits r w)) = loadedLimits r w.
Proof.
  unfold loadSessionLimits, loadedLimits, bind, storage_get.
  destruct (userOrGuest r); [|reflexivity]. cbv beta iota.
  destruct (asLimits _); reflexivity.
Qed.

Lemma mount_parts_limits r cl now :
  preserves limitsOf (loadVideoSetting r)
  /\ preserves limitsOf (loadScene r)
  /\ preserves limitsOf (loadSessionStartTime r;; loadMessages r cl now).
Proof.
  unfold loadVideoSetting, loadScene, loadSessionStartTime, loadMessages,
    storage_set.
  repeat split; frame_with by_computation.
Qed.

(** The mount effect writes one key, the scene. *)
Lemma mountEffect_stored r cl now key :
  key <> "current-scene" ->
  preserves (stored key) (loadVideoSetting r)
  /\ preserves (stored key) (loadScene r)
  /\ preserves (stored key) (mountEffect r cl now).
Proof.
  intros Hkey.
  unfold mountEffect, loadVideoSetting, loadScene, loadSessionLimits,
    loadSessionStartTime, loadMessages, storage_set.
  repeat split; frame_stored.
Qed.

Lemma mountEffect_flags r cl now :
  preserves offerFlag (mountEffect r cl now)
  /\ preserves insightCounter (mountEffect r cl now).
Proof.
  unfold mountEffect, loadVideoSetting, loadScene, loadSessionLimits,
    loadSessionStartTime, loadMessages, storage_set.
  split; frame_with by_computation.
Qed.

(** The limits in state after the mount effect. *)
Lemma mountEffect_limits r cl now w :
  limitsOf (exec (mountEffect r cl now) w) = loadedLimits r w.
Proof.
  destruct (mount_parts_limits r cl now) as (Hvideo & Hscene & Hrest).
  assert ("session-limits" <> "current-scene") as Hkey by discriminate.
  destruct (mountEffect_stored r cl now "session-limits" Hkey)
    as (Hvideo' & Hscene' & _).
  unfold mountEffect, exec.
  rewrite (bind_returns _ _ _ (loadVideoSetting_returns r w)).
  specialize (Hvideo w). specialize (Hvideo' w).
  set (w1 := snd (loadVideoSetting r w)) in *.
  rewrite (bind_returns _ _ _ (loadScene_returns r w1)).
  specialize (Hscene w1). specialize (Hscene' w1).
  set (w2 := snd (loadScene r w1)) in *.
  rewrite (bind_returns _ _ _ (loadSessionLimits_returns r w2)).
  rewrite Hrest, loadSessionLimits_limits.
  unfold loadedLimits, getItem.
  rewrite (stored_storeOf _ (scopeOf r) _ _ Hscene'),
    (stored_storeOf _ (scopeOf r) _ _ Hvideo').
  unfold limitsOf in Hvideo, Hscene. rewrite Hscene, Hvideo. reflexivity.
Qed.

(** *** The cap as an invariant *)





End ControllerFacts.

(** ** C1: the send gate and the message cap *)




(** ** C5: a failed chat request *)

(** C5. When the chat service throws during a send that passed the gate,
    the handler still returns normally, the transcript gains the user's
    message followed by exactly one assistant message carrying the fixed
    apology, and [messagesUsed] keeps the increment made before the
    request. *)
Theorem C5_chat_failure_apology `{TimeUtils} r cl now content e now' w :
  sendBlocked r cl = false ->
  let res := handleSendMessage r cl now content (Thrown e) now' w in
  fst res = Ok tt
  /\ messages (comp (snd res))
     = messages (comp w)
       ++ [Message.mk (pretty now) content RoleUser now;
           Message.mk (pretty (now' + 1))
             "I'm having trouble connecting right now. Let's try again in a moment."
             RoleAssistant now']
  /\ SessionLimits.messagesUsed (sessionLimits (comp (snd res)))
     = SessionLimits.messagesUsed (sessionLimits cl) + 1.
Proof.
  intros Hb res.
  destruct (send_unblocked r cl now content (Thrown e) now' w Hb)
    as (Hret & Hmsgs & _).
  split; [exact Hret|]. split; [exact Hmsgs|].
  change (SessionLimits.messagesUsed
            (limitsOf (exec (handleSendMessage r cl now content (Thrown e) now') w))
          = SessionLimits.messagesUsed (sessionLimits cl) + 1).
  rewrite send_limits by exact Hb. reflexivity.
Qed.

Lemma C5_chat_failure_apology_witness :
  let w := freshWorld (registeredFree 0) in
  let res := handleSendMessage (timeUtils := sampleTimeUtils) (registeredFree 1000)
               (comp w) 1000 "hello" (Thrown "network") 1500 w in
  fst res = Ok tt
  /\ messages (comp (snd res))
     = [greetingAt 0;
        Message.mk "1000" "hello" RoleUser 1000;
        Message.mk "1501"
          "I'm having trouble connecting right now. Let's try again in a moment."
          RoleAssistant 1500]
  /\ SessionLimits.messagesUsed (sessionLimits (comp (snd res))) = 1.
Proof.
  apply (C5_chat_failure_apology (H := sampleTimeUtils) (registeredFree 1000)
           (comp (freshWorld (registeredFree 0))) 1000 "hello" "network" 1500
           (freshWorld (registeredFree 0))).
  reflexivity.
Defined.

(** ** C4: the offer-insight flag *)

Section InsightFacts.

Context {timeUtils : TimeUtils}.

Lemma archiveCurrentSession_returns r cl now sid iid w :
  fst (archiveCurrentSession r cl now sid iid w) = Ok tt.
Proof.
  unfold archiveCurrentSession.
  destruct (_ || _); [reflexivity|]. destruct (userOrGuest r); reflexivity.
Qed.

Lemma publishInsight_outcome r cl vr cap now q w :
  fst (publishInsight r cl vr cap now q w)
  = if videoEnabled cl && vr
    then match cap with Ok _ => Ok tt | Thrown e => Thrown e end
    else Ok tt.
Proof.
  unfold publishInsight, bind.
  destruct (videoEnabled cl && vr); [destruct cap as [still|e]|]; simpl;
    try reflexivity;
    destruct (userOrGuest r); simpl;
    match goal with
    | |- context [archiveCurrentSession ?r ?cl ?n ?s ?i ?w] =>
        pose proof (archiveCurrentSession_returns r cl n s i w) as Ha;
        destruct (archiveCurrentSession r cl n s i w) as [res w']
    end; simpl in *; subst; reflexivity.
Qed.

Lemma generateInsightCard_outcome r cl env msgs w :
  fst (generateInsightCard r cl env msgs w)
  = if generationFails cl env
    then match captureFrame1 env with Ok _ => Ok tt | Thrown e => Thrown e end
    else Ok tt.
Proof.
  unfold generateInsightCard, generationFails.
  set (inner := tryCatch (aiChatService_generateInsightCard _ _ _) _).
  assert (Hinner : exists q w0, inner w = (Ok q, w0)).
  { subst inner. unfold tryCatch, aiChatService_generateInsightCard, bind,
      logEffect, liftRes, ret.
    destruct (remoteInsight env); simpl; eauto. }
  destruct Hinner as (q & w0 & Hinner).
  unfold tryCatch at 1. unfold bind at 1. rewrite Hinner.
  pose proof (publishInsight_outcome r cl (videoRef env) (captureFrame1 env)
                (now1 env) q w0) as H1.
  destruct (publishInsight r cl (videoRef env) (captureFrame1 env) (now1 env) q w0)
    as [res1 w1]. simpl in H1. subst res1.
  destruct (videoEnabled cl && videoRef env) eqn:Hvideo; simpl; [|reflexivity].
  destruct (captureFrame1 env) as [s1|e1]; simpl; [reflexivity|].
  unfold tryCatch, throw.
  pose proof (publishInsight_outcome r cl (videoRef env) (captureFrame2 env)
                (now2 env) (hardcodedQuote (sessionType r)) w1) as H2.
  destruct (publishInsight r cl (videoRef env) (captureFrame2 env) (now2 env)
              (hardcodedQuote (sessionType r)) w1) as [res2 w2].
  simpl in H2. subst res2. rewrite Hvideo.
  destruct (captureFrame2 env); reflexivity.
Qed.

Lemma generateInsightCard_flag r cl env msgs :
  preserves offerFlag (generateInsightCard r cl env msgs).
Proof.
  unfold generateInsightCard, aiChatService_generateInsightCard, publishInsight,
    archiveCurrentSession.
  frame_with by_computation.
Qed.

Lemma generateInsightCard_counter r cl env msgs :
  preserves insightCounter (generateInsightCard r cl env msgs).
Proof.
  unfold generateInsightCard, aiChatService_generateInsightCard, publishInsight,
    archiveCurrentSession.
  frame_with by_computation.
Qed.

(** The offer flag and the counter after a click on the insight button. *)
Lemma handleGenerateInsightClick_flag r cl env w :
  let w' := exec (handleGenerateInsightClick r cl env) w in
  if generationFails cl env
  then offerFlag w' = true /\ insightCounter w' = insightCounter w
  else offerFlag w' = false /\ insightCounter w' = 0.
Proof.
  unfold handleGenerateInsightClick, exec, bind, tryFinally, tryCatch.
  simpl.
  match goal with
  | |- context [generateInsightCard ?r ?cl ?env ?msgs ?w1] =>
      pose proof (generateInsightCard_outcome r cl env msgs w1) as Hout;
      pose proof (generateInsightCard_flag r cl env msgs w1) as Hflag;
      pose proof (generateInsightCard_counter r cl env msgs w1) as Hcnt;
      destruct (generateInsightCard r cl env msgs w1) as [[[]|e] w2]
  end; simpl in *;
    destruct (generationFails cl env) eqn:Hfail; simpl in *.
  - (* returned although both captures throw: impossible *)
    unfold generationFails in Hfail.
    destruct (captureFrame1 env); [|discriminate].
    simpl in Hfail. rewrite andb_false_r in Hfail. discriminate.
  - split; [exact Hflag | reflexivity].
  - split; [reflexivity | exact Hcnt].
  - discriminate.
Qed.

Lemma handleNewSession_flag r cl now w :
  offerFlag (exec (handleNewSession r cl now) w) = false
  /\ insightCounter (exec (handleNewSession r cl now) w) = 0.
Proof.
  unfold handleNewSession, exec, saveSessionLimits.
  destruct (bool_decide (1 < length (messages cl))%nat), (userOrGuest r),
    (sessionType r); split; reflexivity.
Qed.

End InsightFacts.

(** C4, as the code has it. What each event does to the offer flag and
    to the counter of user messages since the last insight. A refused send
    changes neither; a send that passes the gate adds one to the counter
    and raises the flag exactly when the new count is a positive multiple
    of five, a raised flag staying raised. A click on the insight button
    leaves the flag raised and the counter untouched when generation
    failed, and otherwise lowers the flag and zeroes the counter. The
    new-session action lowers the flag and zeroes the counter. The effects
    (saving the transcript, starting the timer, mounting) change neither.
    So the flag is raised by nothing but a fifth send or a failed
    generation, and lowered by nothing but a generation that works or a new
    session. *)
Theorem C4_offer_flag {timeUtils : TimeUtils} {sceneUtils : SceneUtils} r ev w :
  let w' := dispatch r ev w in
  match ev with
  | SendMessage _ _ _ _ =>
      if sendBlocked r (comp w)
      then offerFlag w' = offerFlag w /\ insightCounter w' = insightCounter w
      else offerFlag w' = fifthMessage (insightCounter w + 1) || offerFlag w
           /\ insightCounter w' = insightCounter w + 1
  | GenerateInsight env =>
      if generationFails (comp w) env
      then offerFlag w' = true /\ insightCounter w' = insightCounter w
      else offerFlag w' = false /\ insightCounter w' = 0
  | NewSession _ => offerFlag w' = false /\ insightCounter w' = 0
  | SaveMessages | AutoStart _ | Mount _ =>
      offerFlag w' = offerFlag w /\ insightCounter w' = insightCounter w
  end.
Proof.
  destruct ev as [now content response now'|env|now| |now|now]; cbn [dispatch].
  - destruct (sendBlocked r (comp w)) eqn:Hb.
    + unfold exec. rewrite send_blocked_noop by exact Hb. split; reflexivity.
    + destruct (send_unblocked r (comp w) now content response now' w Hb)
        as (_ & _ & _ & Hcnt & Hflag & _).
      split; [exact Hflag | exact Hcnt].
  - apply handleGenerateInsightClick_flag.
  - apply handleNewSession_flag.
  - unfold exec, saveMessagesEffect. destruct (bool_decide _); split; reflexivity.
  - unfold exec, autoStartEffect. destruct (_ && _); split; reflexivity.
  - split; apply mountEffect_flags.
Qed.

Lemma C4_offer_flag_witness :
  (let w := run (timeUtils := sampleTimeUtils) (sceneUtils := sampleSceneUtils)
              (sends registeredPro 4 1000) (freshWorld (registeredPro 0)) in
   let w' := dispatch (timeUtils := sampleTimeUtils) (sceneUtils := sampleSceneUtils)
               (registeredPro 5000) (SendMessage 5000 "fifth" (Ok "hi") 5500) w in
   offerFlag w = false /\ offerFlag w' = true /\ insightCounter w' = 5)
  /\ (let w' := dispatch (timeUtils := sampleTimeUtils) (sceneUtils := sampleSceneUtils)
                  (registeredPro 7000) (SendMessage 7000 "sixth" (Ok "hi") 7500)
                  offeredWorld in
      offerFlag w' = true /\ insightCounter w' = 6)
  /\ (let w' := dispatch (timeUtils := sampleTimeUtils) (sceneUtils := sampleSceneUtils)
                  (registeredPro 7000) (GenerateInsight (brokenCaptureEnv 7000))
                  offeredWorld in
      offerFlag w' = true /\ insightCounter w' = 5)
  /\ (let w' := dispatch (timeUtils := sampleTimeUtils) (sceneUtils := sampleSceneUtils)
                  (registeredPro 7000) (GenerateInsight (calmEnv 7000))
                  offeredWorld in
      offerFlag w' = false /\ insightCounter w' = 0)
  /\ (let w' := dispatch (timeUtils := sampleTimeUtils) (sceneUtils := sampleSceneUtils)
                  (registeredPro 7000) (Mount 7000) offeredWorld in
      offerFlag w' = true /\ insightCounter w' = 5).
Proof.
  pose proof (C4_offer_flag (timeUtils := sampleTimeUtils) (sceneUtils := sampleSceneUtils)
                (registeredPro 5000) (SendMessage 5000 "fifth" (Ok "hi") 5500)
                (run (timeUtils := sampleTimeUtils) (sceneUtils := sampleSceneUtils)
                   (sends registeredPro 4 1000) (freshWorld (registeredPro 0))))
    as Hfifth.
  pose proof (C4_offer_flag (timeUtils := sampleTimeUtils) (sceneUtils := sampleSceneUtils)
                (registeredPro 7000) (SendMessage 7000 "sixth" (Ok "hi") 7500)
                offeredWorld) as Hsixth.
  pose proof (C4_offer_flag (timeUtils := sampleTimeUtils) (sceneUtils := sampleSceneUtils)
                (registeredPro 7000) (GenerateInsight (brokenCaptureEnv 7000))
                offeredWorld) as Hfailed.
  pose proof (C4_offer_flag (timeUtils := sampleTimeUtils) (sceneUtils := sampleSceneUtils)
                (registeredPro 7000) (GenerateInsight (calmEnv 7000)) offeredWorld)
    as Hworked.
  pose proof (C4_offer_flag (timeUtils := sampleTimeUtils) (sceneUtils := sampleSceneUtils)
                (registeredPro 7000) (Mount 7000) offeredWorld) as Hmount.
  split; [|split; [|split; [|split]]].
  - split; [reflexivity | exact Hfifth].
  - exact Hsixth.
  - exact Hfailed.
  - exact Hworked.
  - exact Hmount.
Defined.

(** C4 as stated fails: with the offer showing, the new-session action
    takes the flag down although no insight generation was triggered. *)
Lemma C4_counterexample :
  offerFlag offeredWorld = true
  /\ offerFlag (dispatch (timeUtils := sampleTimeUtils) (sceneUtils := sampleSceneUtils)
                  (registeredPro 7000) (NewSession 7000) offeredWorld) = false
  /\ (forall env, NewSession 7000 <> GenerateInsight env).
Proof. split; [reflexivity | split; [reflexivity | discriminate]]. Qed.

(** ** C3: which view a render shows *)

(** C3. When the limit-reached condition holds (a registered user on the
    non-paid tier with both sessions completed today) the render shows the
    limit-reached view, whatever the elapsed time. When a non-paid session
    has run longer than the tier's limit, the render shows the expired view
    unless that condition holds. *)
Theorem C3_view_precedence `{TimeUtils} r c :
  (limitReachedCondition r c = true -> view r c = LimitReachedView)
  /\ (forall start,
        sessionStartTime c = Some start ->
        isPro r = false ->
        sessionTimeLimit r * 60 * 1000 < clock r - start ->
        view r c = if limitReachedCondition r c
                   then LimitReachedView else ExpiredView).
Proof.
  unfold view, limitReachedCondition, hasCompletedBothToday, isSessionExpired.
  split.
  - intros Hcond. destruct (user r) as [u|]; [|discriminate].
    destruct (isPro r); [discriminate|].
    destruct (hasCompletedTodaysSession _ _); [|discriminate].
    destruct (hasCompletedTodaysSession _ _); [reflexivity|discriminate].
  - intros start Hstart Hfree Hlong. rewrite Hstart, Hfree.
    apply Z.ltb_lt in Hlong. rewrite Hlong.
    destruct (user r) as [u|]; [|reflexivity].
    destruct (hasCompletedTodaysSession _ _); [|reflexivity].
    destruct (hasCompletedTodaysSession _ _); reflexivity.
Qed.

Lemma C3_view_precedence_witness :
  view (timeUtils := sampleTimeUtils) (registeredFree 3600000) bothDoneComp
  = LimitReachedView
  /\ view (timeUtils := sampleTimeUtils) (guestFree 3600000) bothDoneComp
     = ExpiredView.
Proof.
  split.
  - apply (proj1 (C3_view_precedence (H := sampleTimeUtils)
                    (registeredFree 3600000) bothDoneComp)).
    reflexivity.
  - apply (proj2 (C3_view_precedence (H := sampleTimeUtils)
                    (guestFree 3600000) bothDoneComp) 0);
      [reflexivity | reflexivity | vm_compute; reflexivity].
Defined.

(** ** C2 and C10: the new-session action *)

Section NewSessionFacts.

Context {timeUtils : TimeUtils}.

(** The world after the new-session action, for an identity whose data is
    persisted, closing a session that has more than the greeting. *)
Lemma handleNewSession_persisting r cl now w :
  (1 < length (messages cl))%nat ->
  userOrGuest r = true ->
  let w' := exec (handleNewSession r cl now) w in
  let before := storeOf (scopeOf r) w in
  let after := storeOf (scopeOf r) w' in
  after !! "komorebi-chat-sessions"
  = Some (Json (JSessions (keepRecent50 (archiveOf before ++ [outgoingSession r cl now]))))
  /\ after !! "session-limits"
     = Some (Json (JLimits (SessionLimits.with_messagesUsed 0 (sessionLimits cl))))
  /\ after !! "current-session-messages" = Some (Json JNull).
Proof.
  intros Hlen Hpersist.
  unfold handleNewSession, exec, saveSessionLimits, outgoingSession, archiveOf.
  rewrite (bool_decide_eq_true_2 _ Hlen), Hpersist.
  unfold storage_get, storage_set, scopeOf.
  destruct (user r); cbn -[pretty Math_round_div keepRecent50]; repeat split;
    repeat first [ rewrite lookup_insert_eq | rewrite lookup_insert_ne by done ];
    reflexivity.
Qed.

(** The component state after the new-session action. *)
Lemma handleNewSession_state r cl now w :
  let w' := exec (handleNewSession r cl now) w in
  messages (comp w')
  = [Message.mk "greeting" (greeting (timeOfDay r)) RoleAssistant now]
  /\ sessionStartTime (comp w') = Some now
  /\ insightCard (comp w') = None.
Proof.
  unfold handleNewSession, exec, saveSessionLimits.
  destruct (bool_decide (1 < length (messages cl))%nat), (userOrGuest r),
    (sessionType r); repeat split; reflexivity.
Qed.

(** The start time goes to [localStorage] as raw text, whoever acts. *)
Lemma handleNewSession_start_time r cl now w :
  let w' := exec (handleNewSession r cl now) w in
  localStorage w' !! "session-start-time" = Some (RawIso now)
  /\ StorageWrite Durable "session-start-time" (RawIso now) ∈ effects w'.
Proof.
  unfold handleNewSession, exec, saveSessionLimits, storage_get, storage_set,
    scopeOf.
  destruct (bool_decide (1 < length (messages cl))%nat), (userOrGuest r),
    (user r), (sessionType r); cbn -[pretty Math_round_div keepRecent50]; split;
    repeat first [ rewrite lookup_insert_eq | rewrite lookup_insert_ne by done ];
    try reflexivity; set_solver.
Qed.

(** No handler path of the new-session action writes the start time to
    [sessionStorage]. *)
Lemma handleNewSession_ephemeral_start_time r cl now w :
  sessionStorage (exec (handleNewSession r cl now) w) !! "session-start-time"
  = sessionStorage w !! "session-start-time".
Proof.
  unfold handleNewSession, exec, saveSessionLimits, storage_get, storage_set,
    scopeOf.
  destruct (bool_decide (1 < length (messages cl))%nat), (userOrGuest r),
    (user r), (sessionType r); cbn -[pretty Math_round_div keepRecent50];
    repeat (rewrite lookup_insert_ne by done); reflexivity.
Qed.

End NewSessionFacts.

(** C2, as the code has it. For a registered user or a guest closing a
    session that has more than the greeting, the new-session action appends
    the outgoing session to the identity's archive (keeping the last 50),
    sets [messagesUsed] to zero in state and in the persisted limits
    record, replaces the transcript by one fresh greeting, writes [null]
    over the persisted message buffer, and starts a new timer, whose start
    goes to [localStorage]. *)
Theorem C2_new_session `{TimeUtils} r cl now w :
  (1 < length (messages cl))%nat ->
  userOrGuest r = true ->
  let w' := exec (handleNewSession r cl now) w in
  let before := storeOf (scopeOf r) w in
  let after := storeOf (scopeOf r) w' in
  after !! "komorebi-chat-sessions"
  = Some (Json (JSessions (keepRecent50 (archiveOf before ++ [outgoingSession r cl now]))))
  /\ SessionLimits.messagesUsed (sessionLimits (comp w')) = 0
  /\ (exists limits,
        after !! "session-limits" = Some (Json (JLimits limits))
        /\ SessionLimits.messagesUsed limits = 0)
  /\ messages (comp w')
     = [Message.mk "greeting" (greeting (timeOfDay r)) RoleAssistant now]
  /\ after !! "current-session-messages" = Some (Json JNull)
  /\ sessionStartTime (comp w') = Some now
  /\ localStorage w' !! "session-start-time" = Some (RawIso now).
Proof.
  intros Hlen Hpersist w' before after.
  destruct (handleNewSession_persisting r cl now w Hlen Hpersist)
    as (Harchive & Hlimits & Hbuffer).
  destruct (handleNewSession_state r cl now w) as (Hmsgs & Hstart & _).
  destruct (handleNewSession_start_time r cl now w) as (Hraw & _).
  split; [exact Harchive|].
  split; [change (SessionLimits.messagesUsed (limitsOf w') = 0); subst w';
          rewrite newSession_limits; reflexivity|].
  split; [eexists; split; [exact Hlimits | reflexivity]|].
  auto.
Qed.

Lemma C2_new_session_witness :
  let r := registeredFree 5000 in
  let w := chatted registeredFree in
  let w' := exec (handleNewSession (timeUtils := sampleTimeUtils) r (comp w) 5000) w in
  let before := storeOf (scopeOf r) w in
  let after := storeOf (scopeOf r) w' in
  after !! "komorebi-chat-sessions"
  = Some (Json (JSessions
       (keepRecent50 (archiveOf before
                      ++ [outgoingSession (H := sampleTimeUtils) r (comp w) 5000]))))
  /\ SessionLimits.messagesUsed (sessionLimits (comp w')) = 0
  /\ (exists limits,
        after !! "session-limits" = Some (Json (JLimits limits))
        /\ SessionLimits.messagesUsed limits = 0)
  /\ messages (comp w')
     = [Message.mk "greeting"
          (greeting (timeOfDay (timeUtils := sampleTimeUtils) r)) RoleAssistant 5000]
  /\ after !! "current-session-messages" = Some (Json JNull)
  /\ sessionStartTime (comp w') = Some 5000
  /\ localStorage w' !! "session-start-time" = Some (RawIso 5000).
Proof.
  apply (C2_new_session (H := sampleTimeUtils) (registeredFree 5000)
           (comp (chatted registeredFree)) 5000 (chatted registeredFree)).
  - vm_compute. lia.
  - reflexivity.
Defined.

(** C2 as stated fails for a visitor, who is neither registered nor a
    guest: the session being closed has more than the greeting, yet after
    the action neither storage area holds an archive or a limits record. *)
Lemma C2_counterexample :
  let w := chatted visitor in
  let w' := exec (handleNewSession (timeUtils := sampleTimeUtils)
                    (visitor 5000) (comp w) 5000) w in
  (1 < length (messages (comp w)))%nat
  /\ localStorage w' !! "komorebi-chat-sessions" = None
  /\ sessionStorage w' !! "komorebi-chat-sessions" = None
  /\ localStorage w' !! "session-limits" = None
  /\ sessionStorage w' !! "session-limits" = None.
Proof. vm_compute. repeat split; lia. Qed.

(** The completion timestamp does not survive the action: the limits
    record written last is built from the limits of the closure, so the
    record that ends up in state and in storage has the last-session fields
    of before. *)
Lemma handleNewSession_completion_overwritten :
  let w := chatted registeredFree in
  let w' := exec (handleNewSession (timeUtils := sampleTimeUtils)
                    (registeredFree 5000) (comp w) 5000) w in
  SessionLimits.lastMorningSession (sessionLimits (comp w')) = None
  /\ localStorage w' !! "session-limits"
     = Some (Json (JLimits (SessionLimits.mk false false 0 4 None None)))
  /\ StorageWrite Durable "session-limits"
       (Json (JLimits (SessionLimits.mk false false 0 4 (Some 5000) None)))
     ∈ effects w'.
Proof. vm_compute. repeat split. set_solver. Qed.

(** C10. The new-session action writes the new start time to
    [localStorage] directly, as raw text, for every acting identity and
    not through the identity-scoped adapter. For an identity without a
    user, whose adapter reads [sessionStorage], the start-time key of that
    area is left as it was, so a read of the start time through the adapter
    returns after the action what it returned before. *)
Theorem C10_start_time_bypasses_adapter `{TimeUtils} r cl now w :
  let w' := exec (handleNewSession r cl now) w in
  localStorage w' !! "session-start-time" = Some (RawIso now)
  /\ StorageWrite Durable "session-start-time" (RawIso now) ∈ effects w'
  /\ (user r = None ->
      scopeOf r = Ephemeral
      /\ sessionStorage w' !! "session-start-time"
         = sessionStorage w !! "session-start-time"
      /\ forall default,
           fst (storage_get r "session-start-time" default w')
           = fst (storage_get r "session-start-time" default w)).
Proof.
  intros w'.
  destruct (handleNewSession_start_time r cl now w) as (Hraw & Hlog).
  split; [exact Hraw|]. split; [exact Hlog|].
  intros Hnouser.
  pose proof (handleNewSession_ephemeral_start_time r cl now w) as Hsame.
  split; [unfold scopeOf; rewrite Hnouser; reflexivity|].
  split; [exact Hsame|].
  intros default. unfold storage_get, scopeOf, getItem. rewrite Hnouser.
  cbn [fst storeOf]. subst w'. rewrite Hsame. reflexivity.
Qed.

Lemma C10_start_time_bypasses_adapter_witness :
  let w := chatted guestFree in
  let w' := exec (handleNewSession (timeUtils := sampleTimeUtils)
                    (guestFree 5000) (comp w) 5000) w in
  localStorage w' !! "session-start-time" = Some (RawIso 5000)
  /\ sessionStorage w' !! "session-start-time" = Some (Json (JIso 1000))
  /\ fst (storage_get (guestFree 5000) "session-start-time" JNull w')
     = Ok (JIso 1000).
Proof.
  destruct (C10_start_time_bypasses_adapter (H := sampleTimeUtils)
              (guestFree 5000) (comp (chatted guestFree)) 5000
              (chatted guestFree))
    as (Hraw & _ & Hguest).
  destruct (Hguest eq_refl) as (_ & Hsame & Hread).
  split; [exact Hraw|]. split.
  - etransitivity; [exact Hsame | vm_compute; reflexivity].
  - etransitivity; [exact (Hread JNull) | vm_compute; reflexivity].
Defined.

(** ** C9: insight generation under a guest identity *)

Section GuestFacts.

Context {timeUtils : TimeUtils}.

Lemma archiveCurrentSession_without_user r cl now sid iid w :
  user r = None ->
  archiveCurrentSession r cl now sid iid w = (Ok tt, w).
Proof. intros Hnouser. unfold archiveCurrentSession. rewrite Hnouser. reflexivity. Qed.

(** For a guest, publishing an insight touches the shown card, the insight
    list of [sessionStorage] and the effect log, and nothing else. *)
Lemma publishInsight_guest r cl vr cap now q w :
  user r = None -> isGuest r = true ->
  let res := publishInsight r cl vr cap now q w in
  localStorage (snd res) = localStorage w
  /\ sessionStorage (snd res) !! "komorebi-chat-sessions"
     = sessionStorage w !! "komorebi-chat-sessions"
  /\ sessionStorage (snd res) !! "session-limits"
     = sessionStorage w !! "session-limits"
  /\ match fst res with
     | Ok _ =>
         exists card,
           insightCard (comp (snd res)) = Some card
           /\ InsightCard.quote card = q
           /\ sessionStorage (snd res) !! "insight-cards"
              = Some (Json (JInsights
                   (asInsights (getItem (sessionStorage w) "insight-cards" (JInsights []))
                    ++ [card])))
     | Thrown _ => snd res = w
     end.
Proof.
  intros Hnouser Hguest.
  unfold publishInsight, bind, userOrGuest, storage_get, storage_set, scopeOf.
  rewrite Hnouser, Hguest.
  destruct (videoEnabled cl && vr); [destruct cap as [still|e]|]; cbn -[pretty];
    rewrite ?archiveCurrentSession_without_user by exact Hnouser; cbn -[pretty];
    repeat split;
    try (rewrite lookup_insert_ne by done; reflexivity);
    eexists; repeat split; rewrite lookup_insert_eq; reflexivity.
Qed.

(** For a guest, a whole insight generation stays within the insight list
    of [sessionStorage]. *)
Lemma generateInsightCard_guest r cl env msgs w :
  user r = None -> isGuest r = true ->
  let res := generateInsightCard r cl env msgs w in
  localStorage (snd res) = localStorage w
  /\ sessionStorage (snd res) !! "komorebi-chat-sessions"
     = sessionStorage w !! "komorebi-chat-sessions"
  /\ sessionStorage (snd res) !! "session-limits"
     = sessionStorage w !! "session-limits"
  /\ (fst res = Ok tt ->
      exists card,
        insightCard (comp (snd res)) = Some card
        /\ sessionStorage (snd res) !! "insight-cards"
           = Some (Json (JInsights
                (asInsights (getItem (sessionStorage w) "insight-cards" (JInsights []))
                 ++ [card])))).
Proof.
  intros Hnouser Hguest. cbv zeta. unfold generateInsightCard.
  set (inner := tryCatch (aiChatService_generateInsightCard _ _ _) _).
  assert (Hinner : exists q w0, inner w = (Ok q, w0)
                     /\ localStorage w0 = localStorage w
                     /\ sessionStorage w0 = sessionStorage w).
  { subst inner. unfold tryCatch, aiChatService_generateInsightCard, bind,
      logEffect, liftRes, ret.
    destruct (remoteInsight env); cbn [fst snd localStorage sessionStorage]; eauto. }
  destruct Hinner as (q & w0 & Hinner & Hlocal0 & Hsession0).
  unfold tryCatch, bind, throw. rewrite Hinner.
  pose proof (publishInsight_guest r cl (videoRef env) (captureFrame1 env)
                (now1 env) q w0 Hnouser Hguest) as H1.
  destruct (publishInsight r cl (videoRef env) (captureFrame1 env) (now1 env) q w0)
    as [[[]|e1] w1]; cbn [fst snd] in H1.
  - destruct H1 as (Hl & Ha & Hs & card & Hcard & _ & Hlist). cbn [fst snd].
    rewrite Hl, Ha, Hs, Hlocal0, Hsession0.
    rewrite Hsession0 in Hlist. eauto 10.
  - destruct H1 as (_ & _ & _ & ->).
    pose proof (publishInsight_guest r cl (videoRef env) (captureFrame2 env)
                  (now2 env) (hardcodedQuote (sessionType r)) w0 Hnouser Hguest)
      as H2.
    destruct (publishInsight r cl (videoRef env) (captureFrame2 env) (now2 env)
                (hardcodedQuote (sessionType r)) w0)
      as [[[]|e2] w2]; cbn [fst snd] in H2.
    + destruct H2 as (Hl & Ha & Hs & card & Hcard & _ & Hlist). cbn [fst snd].
      rewrite Hl, Ha, Hs, Hlocal0, Hsession0.
      rewrite Hsession0 in Hlist. eauto 10.
    + destruct H2 as (_ & _ & _ & ->). cbn [fst snd]. rewrite Hlocal0, Hsession0.
      repeat split; try reflexivity. discriminate.
Qed.

End GuestFacts.

(** C9. Under a guest identity [archiveCurrentSession] returns at once and
    changes nothing. An insight generation therefore leaves [localStorage],
    the archive list and the limits record of [sessionStorage], and the
    limits in state as they were, while a generation that completes shows
    the new card and appends it to the guest's insight list. *)
Theorem C9_guest_insight_not_archived `{TimeUtils} r cl env msgs w :
  user r = None -> isGuest r = true ->
  (forall now sessionId insightId w0,
      archiveCurrentSession r cl now sessionId insightId w0 = (Ok tt, w0))
  /\ let res := generateInsightCard r cl env msgs w in
     localStorage (snd res) = localStorage w
     /\ sessionStorage (snd res) !! "komorebi-chat-sessions"
        = sessionStorage w !! "komorebi-chat-sessions"
     /\ sessionStorage (snd res) !! "session-limits"
        = sessionStorage w !! "session-limits"
     /\ limitsOf (snd res) = limitsOf w
     /\ (fst res = Ok tt ->
         exists card,
           insightCard (comp (snd res)) = Some card
           /\ sessionStorage (snd res) !! "insight-cards"
              = Some (Json (JInsights
                   (asInsights (getItem (sessionStorage w) "insight-cards" (JInsights []))
                    ++ [card])))).
Proof.
  intros Hnouser Hguest. split.
  - intros now sid iid w0. apply archiveCurrentSession_without_user, Hnouser.
  - intros res.
    destruct (generateInsightCard_guest r cl env msgs w Hnouser Hguest)
      as (Hlocal & Harchive & Hkey & Hcard).
    repeat split; try assumption.
    apply generateInsightCard_limits.
Qed.

Lemma C9_guest_insight_not_archived_witness :
  let w := chatted guestFree in
  let res := generateInsightCard (timeUtils := sampleTimeUtils) (guestFree 3000)
               (comp w) (calmEnv 3000) [] w in
  localStorage (snd res) = localStorage w
  /\ sessionStorage (snd res) !! "komorebi-chat-sessions" = None
  /\ limitsOf (snd res) = limitsOf w
  /\ length (asInsights (getItem (sessionStorage (snd res)) "insight-cards"
                           (JInsights []))) = 1%nat.
Proof.
  destruct (C9_guest_insight_not_archived (H := sampleTimeUtils) (guestFree 3000)
              (comp (chatted guestFree)) (calmEnv 3000) [] (chatted guestFree)
              eq_refl eq_refl)
    as (_ & Hlocal & Harchive & _ & Hlimits & Hcard).
  split; [exact Hlocal|].
  split; [etransitivity; [exact Harchive | vm_compute; reflexivity]|].
  split; [exact Hlimits|].
  destruct (Hcard eq_refl) as (card & _ & Hlist).
  unfold getItem. rewrite Hlist. reflexivity.
Defined.

(** ** C6: the archive keeps the last fifty sessions *)

Lemma keepRecent50_length l :
  length (keepRecent50 l) = (length l `min` 50)%nat.
Proof.
  unfold keepRecent50. case_bool_decide.
  - rewrite length_drop. lia.
  - lia.
Qed.

Lemma keepRecent50_suffix l : l = evicted l ++ keepRecent50 l.
Proof.
  unfold keepRecent50, evicted. case_bool_decide.
  - symmetry. apply take_drop.
  - replace (length l - 50)%nat with 0%nat by lia. reflexivity.
Qed.

Lemma evicted_before_kept l a b :
  ascendingByCreatedAt l ->
  a ∈ evicted l -> b ∈ keepRecent50 l ->
  ArchivedChatSession.createdAt a <= ArchivedChatSession.createdAt b.
Proof.
  intros Hasc Ha Hb.
  apply list_elem_of_lookup in Ha as [i Hi].
  apply list_elem_of_lookup in Hb as [j Hj].
  pose proof (lookup_lt_Some _ _ _ Hi) as Hilt.
  apply (Hasc i (length (evicted l) + j)%nat a b).
  - lia.
  - transitivity ((evicted l ++ keepRecent50 l) !! i).
    + f_equal. apply keepRecent50_suffix.
    + apply lookup_app_l_Some, Hi.
  - transitivity ((evicted l ++ keepRecent50 l) !! (length (evicted l) + j)%nat).
    + f_equal. apply keepRecent50_suffix.
    + rewrite lookup_app_r by lia.
      replace (length (evicted l) + j - length (evicted l))%nat with j by lia.
      exact Hj.
Qed.

Section ArchiveFacts.

Context {timeUtils : TimeUtils}.

(** The insight path: what [archiveCurrentSession] stores for a registered
    user whose session has more than the greeting. *)
Lemma archiveCurrentSession_stores r cl now sid iid w :
  is_Some (user r) ->
  (1 < length (messages cl))%nat ->
  let w' := snd (archiveCurrentSession r cl now sid iid w) in
  localStorage w' !! "komorebi-chat-sessions"
  = Some (Json (JSessions
       (keepRecent50 (archiveOf (localStorage w)
                      ++ [insightSession r cl now sid iid])))).
Proof.
  intros [u Hu] Hlen.
  unfold archiveCurrentSession, userOrGuest, storage_get, storage_set, scopeOf,
    insightSession, archiveOf.
  rewrite Hu.
  rewrite (bool_decide_eq_true_2 (is_Some (Some u))) by eauto.
  rewrite (bool_decide_eq_false_2 (length (messages cl) ≤ 1)%nat) by lia.
  cbn -[pretty Math_round_div keepRecent50].
  rewrite lookup_insert_eq.
  destruct (sessionStartTime cl); reflexivity.
Qed.

End ArchiveFacts.

(** C6, as the code has it. Whatever list the storage held, after an
    archival through the new-session path or through the insight path the
    persisted list is the old list with the new entry appended and cut to
    its last 50 entries: it never has more than 50, it has exactly 50 when
    the appended list had more, and what is dropped is the front of the
    list, the entries appended earliest. The dropped entries are those of
    lowest [createdAt] when the list is in [createdAt] order. *)
Theorem C6_archive_cap `{TimeUtils} :
  (forall l,
      (length (keepRecent50 l) <= 50)%nat
      /\ ((50 < length l)%nat -> length (keepRecent50 l) = 50%nat)
      /\ l = evicted l ++ keepRecent50 l)
  /\ (forall l a b,
        ascendingByCreatedAt l ->
        a ∈ evicted l -> b ∈ keepRecent50 l ->
        ArchivedChatSession.createdAt a <= ArchivedChatSession.createdAt b)
  /\ (forall r cl now w,
        (1 < length (messages cl))%nat -> userOrGuest r = true ->
        storeOf (scopeOf r) (exec (handleNewSession r cl now) w)
          !! "komorebi-chat-sessions"
        = Some (Json (JSessions
             (keepRecent50 (archiveOf (storeOf (scopeOf r) w)
                            ++ [outgoingSession r cl now])))))
  /\ (forall r cl now sessionId insightId w,
        is_Some (user r) -> (1 < length (messages cl))%nat ->
        localStorage (exec (archiveCurrentSession r cl now sessionId insightId) w)
          !! "komorebi-chat-sessions"
        = Some (Json (JSessions
             (keepRecent50 (archiveOf (localStorage w)
                            ++ [insightSession r cl now sessionId insightId]))))).
Proof.
  split; [|split; [|split]].
  - intros l. pose proof (keepRecent50_length l) as Hlen.
    split; [lia|]. split; [lia|]. apply keepRecent50_suffix.
  - apply evicted_before_kept.
  - intros r cl now w Hlen Hpersist.
    apply (handleNewSession_persisting r cl now w Hlen Hpersist).
  - intros r cl now sid iid w Huser Hlen.
    apply (archiveCurrentSession_stores r cl now sid iid w Huser Hlen).
Qed.

Lemma C6_archive_cap_witness :
  let r := guestFree 5000 in
  let w := fullArchiveWorld in
  let appended :=
    archiveOf (storeOf (scopeOf r) w)
    ++ [outgoingSession (H := sampleTimeUtils) r (comp w) 5000] in
  length (keepRecent50 appended) = 50%nat
  /\ appended = evicted appended ++ keepRecent50 appended
  /\ storeOf (scopeOf r)
       (exec (handleNewSession (timeUtils := sampleTimeUtils) r (comp w) 5000) w)
       !! "komorebi-chat-sessions"
     = Some (Json (JSessions (keepRecent50 appended))).
Proof.
  split; [|split].
  - apply (proj1 (C6_archive_cap (H := sampleTimeUtils))).
    vm_compute. lia.
  - apply (proj1 (C6_archive_cap (H := sampleTimeUtils))).
  - apply (proj1 (proj2 (proj2 (C6_archive_cap (H := sampleTimeUtils))))
             (guestFree 5000) (comp fullArchiveWorld) 5000 fullArchiveWorld).
    + vm_compute. lia.
    + reflexivity.
Defined.

(** C6 as stated fails on the choice of the entry: eviction goes by
    position, not by [createdAt]. With a full archive whose front entry was
    created last, the new-session action drops that entry and keeps entries
    created before it. *)
Lemma C6_counterexample :
  let before := archiveOf (sessionStorage fullArchiveWorld) in
  let w' := exec (handleNewSession (timeUtils := sampleTimeUtils)
                    (guestFree 5000) (comp fullArchiveWorld) 5000)
              fullArchiveWorld in
  let after := archiveOf (sessionStorage w') in
  length before = 50%nat
  /\ length after = 50%nat
  /\ before !! 0%nat = Some (pastSession "late" 900)
  /\ ("late" ∉ map ArchivedChatSession.id after)
  /\ after !! 0%nat = Some (pastSession "early" 100)
  /\ ArchivedChatSession.createdAt (pastSession "early" 100)
     < ArchivedChatSession.createdAt (pastSession "late" 900).
Proof.
  vm_compute. repeat split; try lia.
  intros Hin. repeat (apply elem_of_cons in Hin as [Hin|Hin]; [discriminate|]).
  apply elem_of_nil in Hin. exact Hin.
Qed.

(** ** C7: the local insight fallback *)

(** *** The index drawn *)

Lemma roundHalfEven_bounds p s :
  0 <= p -> 0 <= s ->
  p / 2 ^ s <= roundHalfEven p s
  /\ 2 * (roundHalfEven p s * 2 ^ s) <= 2 * p + 2 ^ s
  /\ (s = 0 -> roundHalfEven p s = p).
Proof.
  intros Hp Hs.
  assert (0 < 2 ^ s) as Hpow by (apply Z.pow_pos_nonneg; lia).
  pose proof (Z.div_mod p (2 ^ s) ltac:(lia)) as Hdm.
  pose proof (Z.mod_pos_bound p (2 ^ s) Hpow) as Hmod.
  unfold roundHalfEven. cbv zeta.
  split; [|split].
  - repeat destruct (_ <? _); try destruct (Z.even _); lia.
  - destruct (Z.ltb_spec (2 * (p mod 2 ^ s)) (2 ^ s)) as [Hlow|Hhigh]; [nia|].
    destruct (_ <? _); [nia|]. destruct (Z.even _); nia.
  - intros ->. change (2 ^ 0) with 1 in *.
    rewrite Z.mod_1_r, Z.div_1_r. reflexivity.
Qed.

(** The product of a draw and a length: the mantissa of the result is the
    exact product scaled down by the [s] bits that did not fit, off by at
    most half a unit; nothing is lost when all bits fit; and no more bits
    are dropped than the length has. *)
Lemma Double_times_rounding rnd n :
  unitDouble rnd -> (0 < n)%nat ->
  let p := mantissa rnd * Z.of_nat n in
  let x := Double_times rnd n in
  let s := exponent x - exponent rnd in
  0 <= s
  /\ 0 <= p / 2 ^ s <= mantissa x
  /\ 2 * (mantissa x * 2 ^ s) <= 2 * p + 2 ^ s
  /\ (s = 0 -> mantissa x = p)
  /\ (0 < s -> 2 ^ (s - 1) < Z.of_nat n).
Proof.
  intros [[Hm0 Hm] _] Hn. unfold Double_times. cbn [mantissa exponent].
  set (m := mantissa rnd) in *.
  set (N := Z.of_nat n). assert (0 < N) as HN by (subst N; lia).
  set (p := m * N). assert (0 <= p) as Hp by (subst p; nia).
  set (s := Z.max 0 (Z.log2 p + 1 - 53)).
  assert (0 <= s) as Hs by (subst s; lia).
  replace (exponent rnd + s - exponent rnd) with s by lia.
  destruct (roundHalfEven_bounds p s Hp Hs) as (Hfloor & Hhalf & Hexact).
  assert (0 < 2 ^ s) as Hpow by (apply Z.pow_pos_nonneg; lia).
  assert (0 <= p / 2 ^ s) as Hq by (apply Z.div_pos; lia).
  repeat split; try assumption.
  intros Hspos.
  assert (s = Z.log2 p + 1 - 53) as Hsdef by (subst s; lia).
  assert (0 < p) as Hppos.
  { destruct (Z.eq_dec p 0) as [Hp0|]; [|lia].
    rewrite Hp0 in Hsdef. change (Z.log2 0) with 0 in Hsdef. lia. }
  pose proof (Z.log2_spec p Hppos) as [Hlog _].
  replace (Z.log2 p) with (s - 1 + 53) in Hlog by lia.
  rewrite Z.pow_add_r in Hlog by lia.
  assert (0 < 2 ^ (s - 1)) as Hpow1 by (apply Z.pow_pos_nonneg; lia).
  assert (p <= (2 ^ 53 - 1) * N) as Hpmax by (subst p; nia).
  nia.
Qed.

(** A draw of [Math.random()] gives an index into the array, however the
    product is rounded. *)
Lemma randomIndex_in_range rnd n :
  unitDouble rnd -> (0 < n)%nat ->
  0 <= randomIndex rnd n < Z.of_nat n.
Proof.
  intros Hunit Hn.
  destruct (Double_times_rounding rnd n Hunit Hn)
    as (Hs & [Hq0 Hfloor] & Hhalf & Hexact & Hbits).
  destruct Hunit as [[Hm0 Hm] [_ He]].
  unfold randomIndex, Math_floor.
  set (x := Double_times rnd n) in *.
  set (s := exponent x - exponent rnd) in *.
  replace (exponent x) with (exponent rnd + s) by (subst s; lia).
  set (q := mantissa x) in *. set (m := mantissa rnd) in *.
  set (e := exponent rnd) in *.
  set (N := Z.of_nat n) in *. assert (0 < N) as HN by (subst N; lia).
  assert (0 <= q) as Hq by lia.
  assert (0 < 2 ^ s) as Hpow by (apply Z.pow_pos_nonneg; lia).
  assert (q * 2 ^ s < N * 2 ^ 53) as Hkey.
  { destruct (Z.eq_dec s 0) as [Hs0|Hs0].
    - rewrite (Hexact Hs0), Hs0. change (2 ^ 0) with 1. nia.
    - assert (2 ^ (s - 1) < N) as Hlt by (apply Hbits; lia).
      assert (2 ^ s = 2 * 2 ^ (s - 1)) as Hsplit.
      { replace s with (1 + (s - 1)) at 1 by lia.
        rewrite Z.pow_add_r by lia. reflexivity. }
      nia. }
  assert (2 ^ 53 <= 2 ^ (- e)) as Hbig by (apply Z.pow_le_mono_r; lia).
  destruct (Z.leb_spec 0 (e + s)) as [Hup|Hdown].
  - assert (2 ^ s = 2 ^ (e + s) * 2 ^ (- e)) as Hsplit.
    { rewrite <- Z.pow_add_r by lia. f_equal. lia. }
    assert (0 < 2 ^ (e + s)) as Hpow2 by (apply Z.pow_pos_nonneg; lia).
    split; [nia|].
    apply Z.nle_gt. intros Hge.
    assert (N * 2 ^ 53 <= q * 2 ^ (e + s) * 2 ^ (- e)) by nia.
    rewrite <- Z.mul_assoc, <- Hsplit in *. lia.
  - assert (0 < 2 ^ (- (e + s))) as Hpow2 by (apply Z.pow_pos_nonneg; lia).
    assert (2 ^ (- e) = 2 ^ (- (e + s)) * 2 ^ s) as Hsplit.
    { rewrite <- Z.pow_add_r by lia. f_equal. lia. }
    split; [apply Z.div_pos; lia|].
    apply Z.div_lt_upper_bound; [exact Hpow2|].
    apply Z.nle_gt. intros Hge.
    assert (N * 2 ^ 53 <= 2 ^ (- (e + s)) * N * 2 ^ s) by nia.
    nia.
Qed.


Lemma pickRandom_index {A} (arr : list A) rnd :
  unitDouble rnd -> arr <> [] ->
  pickRandom arr rnd = arr !! Z.to_nat (randomIndex rnd (length arr))
  /\ exists a, pickRandom arr rnd = Some a /\ a ∈ arr.
Proof.
  intros Hunit Hne.
  assert (0 < length arr)%nat as Hlen by (destruct arr; [congruence | simpl; lia]).
  pose proof (randomIndex_in_range rnd (length arr) Hunit Hlen) as [H0 Hn].
  unfold pickRandom. cbv zeta.
  destruct (Z.ltb_spec (randomIndex rnd (length arr)) 0) as [Hneg|_]; [lia|].
  split; [reflexivity|].
  destruct (lookup_lt_is_Some_2 arr (Z.to_nat (randomIndex rnd (length arr))))
    as [a Ha]; [lia|].
  exists a. split; [exact Ha|]. apply list_elem_of_lookup. eauto.
Qed.

Lemma pickRandom_defined {A} (arr : list A) rnd :
  unitDouble rnd -> arr <> [] ->
  exists a, pickRandom arr rnd = Some a /\ a ∈ arr.
Proof. intros Hunit Hne. apply pickRandom_index; assumption. Qed.

(** *** The text and the table *)


Lemma simulate_follows_table msgs ty rnd :
  simulateInsightGeneration msgs ty rnd
  = pickRandom (spec_pool (spec_category (conversationTextOf msgs)) ty) rnd.
Proof.
  unfold simulateInsightGeneration, spec_category, mentionsAny,
    stressKeywords, positiveKeywords, workKeywords.
  cbn [existsb].
  generalize (conversationTextOf msgs). intros text.
  generalize (includes text "stress"), (includes text "anxious"),
    (includes text "overwhelmed"), (includes text "grateful"),
    (includes text "happy"), (includes text "excited"),
    (includes text "work"), (includes text "career"), (includes text "job").
  intros s1 s2 s3 p1 p2 p3 w1 w2 w3.
  destruct s1, s2, s3; cbn [orb]; try (destruct ty; reflexivity);
    destruct p1, p2, p3; cbn [orb]; try (destruct ty; reflexivity);
    destruct w1, w2, w3; cbn [orb]; destruct ty; reflexivity.
Qed.

Lemma spec_pool_nonempty cat ty : spec_pool cat ty <> [].
Proof. destruct cat, ty; discriminate. Qed.

Section FallbackFacts.

Context {timeUtils : TimeUtils}.




End FallbackFacts.




(** ** C8: the stored procedure [complete_chat_session] *)

(** A missing session, or one owned by another identity, is refused
    whatever the conflict setting, and the database is left as it was. *)
Lemma complete_chat_session_refuses mode caller now new_id pinned
    session_id quote scene db :
  ownerOf db session_id = None
  \/ (exists owner c, ownerOf db session_id = Some owner
                      /\ caller = Some c /\ owner <> c) ->
  Backend.complete_chat_session mode caller now new_id pinned session_id quote scene db
  = (Thrown Backend.notAuthorized, db).
Proof.
  unfold ownerOf, Backend.complete_chat_session.
  destruct (Backend.select_owner_and_type db session_id) as [owner ty]. simpl.
  intros [-> | (o & c & -> & -> & Hne)].
  - reflexivity.
  - unfold Backend.sql_ne, Backend.sql_eq. simpl.
    destruct (N.eqb_spec o c); [contradiction | reflexivity].
Qed.

(** With the default conflict setting, a call by the owner of the session
    stops at the UPDATE: the name [insight_id] on its right-hand side is
    both a variable of the procedure and a column of [chat_sessions]. *)
Lemma complete_chat_session_owner_default caller now new_id pinned
    session_id quote scene db :
  caller <> None ->
  ownerOf db session_id = caller ->
  Backend.complete_chat_session Backend.conflict_error caller now new_id pinned
    session_id quote scene db
  = (Thrown (Backend.ambiguousColumn "insight_id"), db).
Proof.
  unfold ownerOf, Backend.complete_chat_session.
  destruct (Backend.select_owner_and_type db session_id) as [owner ty]. simpl.
  intros Hsome ->. destruct caller as [c|]; [|contradiction].
  unfold Backend.sql_ne, Backend.sql_eq. simpl. rewrite N.eqb_refl. reflexivity.
Qed.

(** C8, on the code. A call by the owner of session 1, with the conflict
    setting the database has by default, inserts no insight, completes no
    session and returns no success object: it raises the ambiguity error of
    the UPDATE and leaves the database as it was. *)
Theorem C8_owner_call_raises :
  Backend.complete_chat_session Backend.conflict_error (Some 7%N) 5000 99%N
    (Some false) (Some 1%N) (Some "A quote.") (Some "ocean") sampleDb
  = (Thrown (Backend.ambiguousColumn "insight_id"), sampleDb).
Proof. reflexivity. Qed.

(** * Further properties of the code *)

(** ** The stored procedure *)

(** X1. A call is refused as unauthorized, with the database untouched,
    when no session has the given identifier or when the session is owned
    by an identity other than the caller's. *)
Theorem X1_complete_chat_session_refuses mode caller now new_id pinned
    session_id quote scene db :
  ownerOf db session_id = None
  \/ (exists owner c, ownerOf db session_id = Some owner
                      /\ caller = Some c /\ owner <> c) ->
  Backend.complete_chat_session mode caller now new_id pinned session_id quote scene db
  = (Thrown Backend.notAuthorized, db).
Proof. apply complete_chat_session_refuses. Qed.

Lemma X1_complete_chat_session_refuses_witness :
  Backend.complete_chat_session Backend.use_variable (Some 8%N) 5000 99%N
    (Some false) (Some 1%N) (Some "A quote.") (Some "ocean") sampleDb
  = (Thrown Backend.notAuthorized, sampleDb).
Proof.
  apply X1_complete_chat_session_refuses.
  right. exists 7%N, 8%N. repeat split. discriminate.
Defined.

(** X2. A caller without an identity is not refused by the ownership
    check: comparing the owner with NULL is neither true nor false, and the
    IF takes its branch only on true. On an owned session the outcome is
    never the authorization error. *)
Theorem X2_null_caller_not_refused mode now new_id pinned session_id quote scene db owner :
  ownerOf db session_id = Some owner ->
  fst (Backend.complete_chat_session mode None now new_id pinned session_id
         quote scene db)
  <> Thrown Backend.notAuthorized.
Proof.
  unfold ownerOf, Backend.complete_chat_session.
  destruct (Backend.select_owner_and_type db session_id) as [o ty].
  cbn [fst]. intros ->. destruct mode; cbn; discriminate.
Qed.

Lemma X2_null_caller_not_refused_witness :
  fst (Backend.complete_chat_session Backend.use_variable None 5000 99%N
         (Some false) (Some 1%N) (Some "A quote.") (Some "ocean") sampleDb)
  <> Thrown Backend.notAuthorized.
Proof. apply (X2_null_caller_not_refused _ _ _ _ _ _ _ _ 7%N). reflexivity. Defined.

Lemma lookup_map {A B} (f : A -> B) (l : list A) (i : nat) :
  map f l !! i = f <$> l !! i.
Proof.
  revert i. induction l as [|a l IH]; intros [|i]; cbn; try reflexivity. apply IH.
Qed.

Lemma resolve_session_id mode :
  Backend.resolve mode Backend.chat_sessions.columns "session_id" = Backend.IsVariable.
Proof. destruct mode; vm_compute; reflexivity. Qed.

Lemma resolve_insight_id mode :
  Backend.resolve mode Backend.chat_sessions.columns "insight_id"
  = match mode with
    | Backend.conflict_error => Backend.Ambiguous
    | Backend.use_variable => Backend.IsVariable
    | Backend.use_column => Backend.IsColumn
    end.
Proof. destruct mode; vm_compute; reflexivity. Qed.

(** X4. Where the conflict setting resolves names to variables, a call by
    the owner adds exactly one insight row, carrying the quote, the scene
    and the type of the session; marks every row of that session, and no
    other row, as completed at the time of the call and linked to the new
    insight; and returns the success object with both identifiers. *)
Theorem X4_complete_chat_session_use_variable caller now new_id pinned sid quote scene db :
  ownerOf db (Some sid) = Some caller ->
  let res := Backend.complete_chat_session Backend.use_variable (Some caller) now
               new_id pinned (Some sid) quote scene db in
  fst res = Ok [("success", Backend.JsonBool true);
                ("insight_id", Backend.JsonUuid (Some new_id));
                ("session_id", Backend.JsonUuid (Some sid))]
  /\ Backend.insights_table (snd res)
     = Backend.insights_table db
       ++ [Backend.insights.mk new_id (Some sid) quote
             (snd (Backend.select_owner_and_type db (Some sid))) scene pinned]
  /\ length (Backend.chat_sessions_table (snd res))
     = length (Backend.chat_sessions_table db)
  /\ forall i cs,
       Backend.chat_sessions_table db !! i = Some cs ->
       exists cs',
         Backend.chat_sessions_table (snd res) !! i = Some cs'
         /\ Backend.chat_sessions.id cs' = Backend.chat_sessions.id cs
         /\ Backend.chat_sessions.user_id cs' = Backend.chat_sessions.user_id cs
         /\ if (Backend.chat_sessions.id cs =? sid)%N
            then Backend.chat_sessions.completed cs' = Some true
                 /\ Backend.chat_sessions.completed_at cs' = Some now
                 /\ Backend.chat_sessions.insight_id cs' = Some new_id
            else cs' = cs.
Proof.
  unfold ownerOf, Backend.complete_chat_session.
  destruct (Backend.select_owner_and_type db (Some sid)) as [o ty].
  cbn [fst snd]. intros ->.
  unfold Backend.sql_ne, Backend.sql_eq. cbn -[Backend.update_completed Backend.resolve].
  rewrite N.eqb_refl, resolve_session_id, resolve_insight_id.
  cbn -[Backend.update_completed].
  split; [reflexivity|]. split; [reflexivity|].
  unfold Backend.update_completed.
  split; [apply length_map|].
  intros i cs Hcs. rewrite lookup_map, Hcs. cbn.
  eexists. split; [reflexivity|].
  unfold Backend.sql_eq, Backend.sql_holds.
  destruct (Backend.chat_sessions.id cs =? sid)%N; cbn; auto.
Qed.

Lemma X4_complete_chat_session_use_variable_witness :
  let res := Backend.complete_chat_session Backend.use_variable (Some 7%N) 5000
               99%N (Some false) (Some 1%N) (Some "A quote.") (Some "ocean")
               sampleDb in
  fst res = Ok [("success", Backend.JsonBool true);
                ("insight_id", Backend.JsonUuid (Some 99%N));
                ("session_id", Backend.JsonUuid (Some 1%N))]
  /\ length (Backend.insights_table (snd res)) = 1%nat.
Proof.
  destruct (X4_complete_chat_session_use_variable 7%N 5000 99%N (Some false) 1%N
              (Some "A quote.") (Some "ocean") sampleDb eq_refl)
    as (Hres & Hrows & _).
  split; [exact Hres|]. rewrite Hrows. reflexivity.
Defined.

(** ** The archive cut *)

Lemma keepRecent50_last l x : last (keepRecent50 (l ++ [x])) = Some x.
Proof.
  unfold keepRecent50. case_bool_decide as Hlong; [|apply last_snoc].
  rewrite length_app in *. cbn [length] in *.
  rewrite drop_app_le by lia. apply last_snoc.
Qed.

(** X5. The entry just appended is never the one the cut removes: it is
    the last entry of the list that is stored. Cutting a list again changes
    nothing. *)
Theorem X5_keepRecent50_keeps_newest l x :
  last (keepRecent50 (l ++ [x])) = Some x
  /\ keepRecent50 (keepRecent50 l) = keepRecent50 l.
Proof.
  split.
  - apply keepRecent50_last.
  - pose proof (keepRecent50_length l) as Hlen.
    unfold keepRecent50 at 1. rewrite bool_decide_eq_false_2 by lia. reflexivity.
Qed.

(** ** Scene and video controls *)

(** X6. The scene drawn by the random-scene action is one of the scenes
    available for the session type and is never the current scene. When
    the draw is in [[0, 1)] and some other scene is available, a scene is
    drawn; when the current scene is the only one available, nothing is
    drawn and the scene would become undefined. *)
Theorem X6_randomSceneChoice availableScenes current rnd :
  (forall scene,
      randomSceneChoice availableScenes current rnd = Some scene ->
      scene ∈ availableScenes /\ scene <> current)
  /\ (unitDouble rnd ->
      (exists other, other ∈ availableScenes /\ other <> current) ->
      exists scene, randomSceneChoice availableScenes current rnd = Some scene)
  /\ ((forall scene, scene ∈ availableScenes -> scene = current) ->
      randomSceneChoice availableScenes current rnd = None).
Proof.
  unfold randomSceneChoice. split; [|split].
  - intros scene Hpick. unfold pickRandom in Hpick.
    destruct (_ <? 0); [discriminate|].
    apply list_elem_of_lookup_2 in Hpick.
    apply list_elem_of_filter in Hpick as [Hne Hin]. auto.
  - intros Hunit (other & Hin & Hne).
    destruct (pickRandom_defined
                (filter (fun scene => scene ≠ current) availableScenes) rnd Hunit)
      as (scene & Hpick & _).
    + intros Hempty.
      assert (other ∈ filter (fun scene => scene ≠ current) availableScenes) as Hother
        by (apply list_elem_of_filter; auto).
      rewrite Hempty in Hother. apply elem_of_nil in Hother. exact Hother.
    + eauto.
  - intros Honly.
    assert (filter (fun scene => scene ≠ current) availableScenes = []) as ->.
    { destruct (filter (fun scene => scene ≠ current) availableScenes)
        as [|scene rest] eqn:Hfilter; [reflexivity|].
      assert (scene ∈ filter (fun scene => scene ≠ current) availableScenes) as Hin
        by (rewrite Hfilter; left).
      apply list_elem_of_filter in Hin as [Hne Hin].
      exfalso. apply Hne, Honly, Hin. }
    unfold pickRandom. destruct (_ <? 0); reflexivity.
Qed.

Lemma X6_randomSceneChoice_witness :
  (exists scene,
      randomSceneChoice ["ocean"; "forest"; "rain"] "forest" draw_half = Some scene)
  /\ randomSceneChoice ["ocean"] "ocean" draw_half = None.
Proof.
  split.
  - apply (proj1 (proj2 (X6_randomSceneChoice ["ocean"; "forest"; "rain"]
                           "forest" draw_half))).
    + vm_compute. intuition discriminate.
    + exists "ocean". split; [left | discriminate].
  - apply (proj2 (proj2 (X6_randomSceneChoice ["ocean"] "ocean" draw_half))).
    intros scene Hin. apply list_elem_of_singleton in Hin. exact Hin.
Defined.

Section ControlFacts.

Context {timeUtils : TimeUtils}.

(** X7. Toggling the video background flips the flag in state and stores
    the text of the new flag under the identity's storage area, so state
    and storage agree; toggling twice brings the flag back. *)
Theorem X7_toggleVideoBackground r w :
  let w1 := exec (toggleVideoBackground r (comp w)) w in
  let w2 := exec (toggleVideoBackground r (comp w1)) w1 in
  videoEnabled (comp w1) = negb (videoEnabled (comp w))
  /\ storeOf (scopeOf r) w1 !! "video-background-enabled"
     = Some (Json (JStr (JSON_stringify_bool (videoEnabled (comp w1)))))
  /\ videoEnabled (comp w2) = videoEnabled (comp w)
  /\ storeOf (scopeOf r) w2 !! "video-background-enabled"
     = Some (Json (JStr (JSON_stringify_bool (videoEnabled (comp w))))).
Proof.
  unfold toggleVideoBackground, exec, storage_set, scopeOf.
  destruct (user r); cbn [bind setVideoEnabled modifyComp writeItem snd fst comp
                          videoEnabled storeOf localStorage sessionStorage];
    rewrite !lookup_insert_eq, negb_involutive; repeat split; reflexivity.
Qed.

End ControlFacts.

(** ** Sending *)

Section SendMore.

Context {timeUtils : TimeUtils}.

(** X8. A send that passes the gate starts the session timer only when
    none is running: a running timer is left alone, in state and in the
    identity's storage area; otherwise the start time becomes the time of
    the send and is stored through the adapter. *)
Theorem X8_send_starts_timer_once r cl now content response now' w :
  sendBlocked r cl = false ->
  let w' := exec (handleSendMessage r cl now content response now') w in
  match sessionStartTime cl with
  | Some _ =>
      sessionStartTime (comp w') = sessionStartTime (comp w)
      /\ stored "session-start-time" w' = stored "session-start-time" w
  | None =>
      sessionStartTime (comp w') = Some now
      /\ storeOf (scopeOf r) w' !! "session-start-time" = Some (Json (JIso now))
  end.
Proof.
  intros Hb. unfold handleSendMessage, exec. rewrite Hb.
  unfold saveSessionLimits, aiChatService_sendMessage, storage_set, scopeOf, stored.
  destruct (sessionStartTime cl), (userOrGuest r), (user r), (_ && _), response;
    cbn -[pretty]; split; try reflexivity;
    repeat first [ rewrite lookup_insert_eq | rewrite lookup_insert_ne by done ];
    reflexivity.
Qed.

(** X9. A send that passes the gate makes exactly one chat request, after
    its storage writes, carrying the text, the session type, the user's
    name and the transcript of the closure without the greeting; a blocked
    send makes none. *)
Theorem X9_one_chat_request_per_send r cl now content response now' w :
  let w' := exec (handleSendMessage r cl now content response now') w in
  chatRequests (effects w')
  = chatRequests (effects w)
    ++ (if sendBlocked r cl then []
        else [ChatRequest content (sessionType r)
                (map (fun msg => (Message.role msg, Message.content msg))
                   (filter (fun msg => Message.id msg ≠ "greeting") (messages cl)))
                (profileName r)]).
Proof.
  unfold exec. destruct (sendBlocked r cl) eqn:Hb.
  - rewrite send_blocked_noop by exact Hb. cbn [snd]. rewrite app_nil_r. reflexivity.
  - unfold handleSendMessage. rewrite Hb.
    unfold saveSessionLimits, aiChatService_sendMessage, chatRequests.
    destruct (bool_decide (is_Some (sessionStartTime cl))), (userOrGuest r),
      (_ && _), response; cbn -[pretty filter];
      rewrite !filter_app; cbn; rewrite ?app_nil_r; reflexivity.
Qed.

End SendMore.

Lemma X8_send_starts_timer_once_witness :
  let w := freshWorld (registeredFree 0) in
  let w' := exec (handleSendMessage (timeUtils := sampleTimeUtils)
                    (registeredFree 1000) (comp w) 1000 "hello" (Ok "hi") 1500) w in
  sessionStartTime (comp w') = Some 1000
  /\ storeOf (scopeOf (registeredFree 1000)) w' !! "session-start-time"
     = Some (Json (JIso 1000)).
Proof.
  apply (X8_send_starts_timer_once (timeUtils := sampleTimeUtils)
           (registeredFree 1000) (comp (freshWorld (registeredFree 0))) 1000
           "hello" (Ok "hi") 1500 (freshWorld (registeredFree 0))).
  reflexivity.
Defined.


(** ** What reaches storage *)

Section VisitorFacts.

Context {timeUtils : TimeUtils} {sceneUtils : SceneUtils}.

(** Settles a frame goal for each of the personal keys in turn. *)
Ltac each_personal_key Hkey :=
  unfold personalKeys in Hkey;
  repeat (apply elem_of_cons in Hkey as [->|Hkey]);
  [| | |by apply elem_of_nil in Hkey];
  frame_stored.

Lemma visitor_send r cl now content response now' key :
  user r = None -> userOrGuest r = false -> key ∈ personalKeys ->
  preserves (stored key) (handleSendMessage r cl now content response now').
Proof.
  intros Hnouser Hug Hkey.
  unfold handleSendMessage, saveSessionLimits, aiChatService_sendMessage,
    storage_set, scopeOf.
  rewrite Hug, Hnouser. each_personal_key Hkey.
Qed.

Lemma visitor_insight r cl env key :
  user r = None -> userOrGuest r = false -> key ∈ personalKeys ->
  preserves (stored key) (handleGenerateInsightClick r cl env).
Proof.
  intros Hnouser Hug Hkey.
  unfold handleGenerateInsightClick, generateInsightCard,
    aiChatService_generateInsightCard, publishInsight, archiveCurrentSession,
    storage_set, scopeOf.
  rewrite Hug, Hnouser. each_personal_key Hkey.
Qed.

Lemma visitor_newSession r cl now key :
  user r = None -> userOrGuest r = false -> key ∈ personalKeys ->
  preserves (stored key) (handleNewSession r cl now).
Proof.
  intros Hnouser Hug Hkey.
  unfold handleNewSession, saveSessionLimits, storage_set,
    localStorage_setItem, scopeOf.
  rewrite Hug, Hnouser. each_personal_key Hkey.
Qed.

Lemma visitor_effects r cl now key :
  user r = None -> key ∈ personalKeys ->
  preserves (stored key) (saveMessagesEffect r cl)
  /\ preserves (stored key) (autoStartEffect r cl now).
Proof.
  intros Hnouser Hkey.
  unfold saveMessagesEffect, autoStartEffect, storage_set, scopeOf.
  rewrite Hnouser. split; each_personal_key Hkey.
Qed.

Lemma visitor_event_stored r ev w key :
  user r = None -> isGuest r = false ->
  key ∈ personalKeys ->
  stored key (dispatch r ev w) = stored key w.
Proof.
  intros Hnouser Hnoguest Hkey.
  assert (Hug : userOrGuest r = false)
    by (unfold userOrGuest; rewrite Hnouser; exact Hnoguest).
  destruct ev as [now content response now'|env|now| |now|now]; unfold dispatch, exec.
  - apply visitor_send; assumption.
  - apply visitor_insight; assumption.
  - apply visitor_newSession; assumption.
  - apply (visitor_effects r (comp w) 0 key Hnouser Hkey).
  - apply (visitor_effects r (comp w) now key Hnouser Hkey).
  - apply (mountEffect_stored r (comp w) now key).
    intros ->. unfold personalKeys in Hkey.
    repeat (apply elem_of_cons in Hkey as [Hkey|Hkey]; [discriminate|]).
    apply elem_of_nil in Hkey. exact Hkey.
Qed.

End VisitorFacts.

(** X10. While the visitor is neither registered nor a guest, nothing the
    controller does reaches the limits record, the archive or the insight
    list of either storage area: whatever events follow one another, the
    mount effect among them, those keys hold what they held. *)
Theorem X10_visitor_leaves_no_personal_data {timeUtils : TimeUtils} {sceneUtils : SceneUtils} evs w key :
  Forall (fun e => user e.1 = None /\ isGuest e.1 = false) evs ->
  key ∈ personalKeys ->
  stored key (run evs w) = stored key w.
Proof.
  intros Hvisitor Hkey. revert w.
  induction evs as [|[r ev] evs IH]; intros w; [reflexivity|].
  inversion Hvisitor as [|? ? [Hnouser Hnoguest] Hrest]; subst.
  cbn [run]. rewrite IH by exact Hrest.
  apply visitor_event_stored; assumption.
Qed.

Lemma X10_visitor_leaves_no_personal_data_witness :
  stored "komorebi-chat-sessions"
    (run (timeUtils := sampleTimeUtils) (sceneUtils := sampleSceneUtils)
       (sends visitor 3 1000 ++ [(visitor 9000, GenerateInsight (calmEnv 9000));
                                 (visitor 9200, Mount 9200);
                                 (visitor 9500, NewSession 9500)])
       (freshWorld (visitor 0)))
  = stored "komorebi-chat-sessions" (freshWorld (visitor 0)).
Proof.
  apply (X10_visitor_leaves_no_personal_data (timeUtils := sampleTimeUtils) (sceneUtils := sampleSceneUtils)).
  - vm_compute. repeat constructor.
  - unfold personalKeys. right. left.
Defined.

(** ** Tiers *)


Section TierFacts.

Context {timeUtils : TimeUtils} {sceneUtils : SceneUtils}.


(** A paid user's send is held back by nothing but a reply in flight. *)
Lemma sendBlocked_pro r cl : isPro r = true -> sendBlocked r cl = isLoading cl.
Proof.
  intros Hpro. unfold sendBlocked, isSessionExpired. rewrite Hpro.
  cbn [negb andb]. rewrite !orb_false_r. reflexivity.
Qed.

Lemma pro_send r now content response now' w :
  isPro r = true -> isLoading (comp w) = false ->
  let w' := dispatch r (SendMessage now content response now') w in
  isLoading (comp w') = false
  /\ SessionLimits.messagesUsed (sessionLimits (comp w'))
     = SessionLimits.messagesUsed (sessionLimits (comp w)) + 1.
Proof.
  intros Hpro Hidle.
  assert (Hb : sendBlocked r (comp w) = false)
    by (rewrite sendBlocked_pro by exact Hpro; exact Hidle).
  pose proof (send_limits r (comp w) now content response now' w Hb) as Hlim.
  destruct (send_unblocked r (comp w) now content response now' w Hb)
    as (_ & _ & Hload & _).
  unfold dispatch, limitsOf, exec in *. split; [exact Hload|].
  rewrite Hlim. reflexivity.
Qed.

End TierFacts.



(** X12. On the paid tier neither the message cap nor the time limit
    holds a send back: from an idle page, every one of any number of sends
    in a row goes through, and [messagesUsed] grows by their number,
    beyond any value of [maxMessages]. *)
Theorem X12_paid_tier_never_capped {timeUtils : TimeUtils} {sceneUtils : SceneUtils} evs w :
  Forall (fun e => isPro e.1 = true /\ isSendMessage e.2 = true) evs ->
  isLoading (comp w) = false ->
  SessionLimits.messagesUsed (sessionLimits (comp (run evs w)))
  = SessionLimits.messagesUsed (sessionLimits (comp w)) + Z.of_nat (length evs).
Proof.
  intros Hevs. revert w.
  induction evs as [|[r ev] evs IH]; intros w Hidle; [cbn; lia|].
  inversion Hevs as [|? ? [Hpro Hsend] Hrest]; subst.
  destruct ev as [now content response now'| | | | |]; try discriminate.
  destruct (pro_send r now content response now' w Hpro Hidle) as (Hidle' & Hused).
  cbn [run]. rewrite IH by assumption. rewrite Hused.
  cbn [length]. lia.
Qed.

Lemma X12_paid_tier_never_capped_witness :
  SessionLimits.messagesUsed
    (sessionLimits (comp (run (timeUtils := sampleTimeUtils) (sceneUtils := sampleSceneUtils) (sends registeredPro 6 1000)
                            (freshWorld (registeredPro 0)))))
  = SessionLimits.messagesUsed (sessionLimits (comp (freshWorld (registeredPro 0))))
    + Z.of_nat (length (sends registeredPro 6 1000)).
Proof.
  apply (X12_paid_tier_never_capped (timeUtils := sampleTimeUtils) (sceneUtils := sampleSceneUtils)).
  - vm_compute. repeat constructor.
  - reflexivity.
Defined.

(** ** Starting over, and starting by itself *)

Section RestartFacts.

Context {timeUtils : TimeUtils} {sceneUtils : SceneUtils}.

(** X13. When the page holds no more than the greeting, the new-session
    action archives nothing: the archive of either storage area is left as
    it was, while the transcript, the timer and the counters are still
    reset. *)
Theorem X13_new_session_without_content r cl now w :
  (length (messages cl) <= 1)%nat ->
  let w' := exec (handleNewSession r cl now) w in
  stored "komorebi-chat-sessions" w' = stored "komorebi-chat-sessions" w
  /\ messages (comp w')
     = [Message.mk "greeting" (greeting (timeOfDay r)) RoleAssistant now]
  /\ sessionStartTime (comp w') = Some now
  /\ SessionLimits.messagesUsed (sessionLimits (comp w')) = 0.
Proof.
  intros Hshort w'. split; [|split; [|split]].
  - subst w'. unfold exec. revert w.
    change (preserves (stored "komorebi-chat-sessions") (handleNewSession r cl now)).
    unfold handleNewSession, saveSessionLimits, storage_set, localStorage_setItem.
    rewrite bool_decide_eq_false_2 by lia.
    frame_stored.
  - apply (handleNewSession_state r cl now w).
  - apply (handleNewSession_state r cl now w).
  - change (SessionLimits.messagesUsed (limitsOf w') = 0). subst w'.
    rewrite newSession_limits. reflexivity.
Qed.

(** X14. The message buffer the new-session action clears does not stay
    cleared: the effect that saves the transcript runs on the render that
    follows and stores the fresh greeting under the same key. *)
Theorem X14_buffer_refilled_with_greeting r cl now w :
  let w1 := exec (handleNewSession r cl now) w in
  let w2 := exec (saveMessagesEffect r (comp w1)) w1 in
  storeOf (scopeOf r) w1 !! "current-session-messages" = Some (Json JNull)
  /\ storeOf (scopeOf r) w2 !! "current-session-messages"
     = Some (Json (JMessages
          [Message.mk "greeting" (greeting (timeOfDay r)) RoleAssistant now])).
Proof.
  intros w1 w2. split.
  - subst w1. unfold handleNewSession, exec, saveSessionLimits, storage_get,
      storage_set, scopeOf.
    destruct (bool_decide (1 < length (messages cl))%nat), (userOrGuest r),
      (user r), (sessionType r); cbn -[pretty Math_round_div keepRecent50];
      repeat first [ rewrite lookup_insert_eq | rewrite lookup_insert_ne by done ];
      reflexivity.
  - destruct (handleNewSession_state r cl now w) as (Hmsgs & _).
    fold w1 in Hmsgs. subst w2. clearbody w1.
    unfold saveMessagesEffect, exec, storage_set, scopeOf. rewrite Hmsgs.
    rewrite bool_decide_eq_true_2 by (cbn [length]; lia).
    unfold when, writeItem.
    destruct (user r); cbn [snd storeOf localStorage sessionStorage];
      rewrite lookup_insert_eq; reflexivity.
Qed.

(** X15. The auto-start effect does nothing while a timer is running, so
    running it again after it has started the timer changes nothing more;
    when it does start the timer, the start time is the clock of the effect
    and is stored through the adapter. *)
Theorem X15_autoStart_once r now now' w :
  let w1 := dispatch r (AutoStart now) w in
  (is_Some (sessionStartTime (comp w)) -> w1 = w)
  /\ dispatch r (AutoStart now') w1 = w1
  /\ (sessionStartTime (comp w1) <> sessionStartTime (comp w) ->
      sessionStartTime (comp w1) = Some now
      /\ storeOf (scopeOf r) w1 !! "session-start-time" = Some (Json (JIso now))).
Proof.
  intros w1. subst w1. unfold dispatch, exec, autoStartEffect.
  split; [|split].
  - intros Hsome. rewrite (bool_decide_eq_true_2 _ Hsome). cbn [negb].
    rewrite andb_false_r. reflexivity.
  - destruct (shouldAutoStart (timeOfDay r)) eqn:Hauto;
      destruct (bool_decide (is_Some (sessionStartTime (comp w)))) eqn:Hstarted;
      destruct (hasCompletedBothToday r (comp w)) eqn:Hboth;
      destruct (isSessionExpired r (comp w)) eqn:Hexp;
      cbn [negb andb when ret snd];
      rewrite ?Hauto, ?Hstarted, ?Hboth, ?Hexp; reflexivity.
  - destruct (_ && _) eqn:Hfires;
      [|intros Hne; contradiction Hne; reflexivity].
    intros _. unfold when, bind, setSessionStartTime, modifyComp, storage_set,
      writeItem, scopeOf.
    destruct (user r); cbn [snd comp sessionStartTime storeOf localStorage
                            sessionStorage];
      rewrite lookup_insert_eq; split; reflexivity.
Qed.

End RestartFacts.

Lemma X13_new_session_without_content_witness :
  let w := freshWorld (registeredFree 0) in
  let w' := exec (handleNewSession (timeUtils := sampleTimeUtils)
                    (registeredFree 5000) (comp w) 5000) w in
  stored "komorebi-chat-sessions" w' = stored "komorebi-chat-sessions" w
  /\ messages (comp w')
     = [Message.mk "greeting"
          (greeting (timeOfDay (timeUtils := sampleTimeUtils) (registeredFree 5000)))
          RoleAssistant 5000]
  /\ sessionStartTime (comp w') = Some 5000
  /\ SessionLimits.messagesUsed (sessionLimits (comp w')) = 0.
Proof.
  apply (X13_new_session_without_content (timeUtils := sampleTimeUtils)
           (registeredFree 5000) (comp (freshWorld (registeredFree 0))) 5000
           (freshWorld (registeredFree 0))).
  vm_compute. lia.
Defined.

Lemma X15_autoStart_once_witness :
  dispatch (timeUtils := sampleTimeUtils) (sceneUtils := sampleSceneUtils) (registeredFree 2000) (AutoStart 2000)
    (chatted registeredFree)
  = chatted registeredFree.
Proof.
  apply (proj1 (X15_autoStart_once (timeUtils := sampleTimeUtils) (sceneUtils := sampleSceneUtils)
                  (registeredFree 2000) 2000 3000 (chatted registeredFree))).
  vm_compute. eauto.
Defined.

(** ** Insights and the archive *)

Section LinkFacts.

Context {timeUtils : TimeUtils}.

Lemma archiveCurrentSession_session r cl now sid iid :
  preserves sessionOf (archiveCurrentSession r cl now sid iid).
Proof. unfold archiveCurrentSession. frame_with by_computation. Qed.

(** For a registered user with something said, publishing either throws
    at the capture, before anything changed, or shows the card, appends it
    to the insight list and archives the session with a link to it. *)
Lemma publishInsight_registered r cl vr cap now q w u :
  user r = Some u ->
  (1 < length (messages cl))%nat ->
  let res := publishInsight r cl vr cap now q w in
  match fst res with
  | Ok _ =>
      exists card,
        cardOf (snd res) = Some card
        /\ InsightCard.id card = pretty now
        /\ InsightCard.sessionId card = pretty now
        /\ InsightCard.type card = sessionType r
        /\ sessionOf (snd res) = sessionOf w
        /\ localStorage (snd res) !! "insight-cards"
           = Some (Json (JInsights
                (asInsights (getItem (localStorage w) "insight-cards" (JInsights []))
                 ++ [card])))
        /\ localStorage (snd res) !! "komorebi-chat-sessions"
           = Some (Json (JSessions
                (keepRecent50
                   (archiveOf (localStorage w)
                    ++ [insightSession r cl now (pretty now) (Some (pretty now))]))))
  | Thrown _ => snd res = w
  end.
Proof.
  intros Huser Hlen.
  unfold publishInsight, archiveCurrentSession, bind, userOrGuest, storage_get,
    storage_set, scopeOf, insightSession, archiveOf.
  rewrite Huser.
  rewrite (bool_decide_eq_true_2 (is_Some (Some u))) by eauto.
  rewrite (bool_decide_eq_false_2 (length (messages cl) ≤ 1)%nat) by lia.
  destruct (videoEnabled cl && vr); [destruct cap as [still|e]|];
    cbn -[pretty Math_round_div keepRecent50]; try reflexivity;
    eexists; (split; [reflexivity|]);
    (split; [reflexivity|]); (split; [reflexivity|]); (split; [reflexivity|]);
    (split; [reflexivity|]);
    unfold getItem;
    repeat first [ rewrite lookup_insert_eq | rewrite lookup_insert_ne by done ];
    (split; [reflexivity|]);
    destruct (sessionStartTime cl); reflexivity.
Qed.

(** The same for a whole generation: if it returns, a card is on show, is
    the last of the insight list, and the archive ends with the session,
    linked to that card. The clock is the one of the path that published. *)
Lemma generateInsightCard_registered r cl env msgs w u :
  user r = Some u ->
  (1 < length (messages cl))%nat ->
  let res := generateInsightCard r cl env msgs w in
  fst res = Ok tt ->
  exists card now,
    cardOf (snd res) = Some card
    /\ InsightCard.id card = pretty now
    /\ InsightCard.sessionId card = pretty now
    /\ InsightCard.type card = sessionType r
    /\ sessionOf (snd res) = sessionOf w
    /\ localStorage (snd res) !! "insight-cards"
       = Some (Json (JInsights
            (asInsights (getItem (localStorage w) "insight-cards" (JInsights []))
             ++ [card])))
    /\ localStorage (snd res) !! "komorebi-chat-sessions"
       = Some (Json (JSessions
            (keepRecent50
               (archiveOf (localStorage w)
                ++ [insightSession r cl now (pretty now) (Some (pretty now))])))).
Proof.
  intros Huser Hlen. cbv zeta. unfold generateInsightCard.
  set (inner := tryCatch (aiChatService_generateInsightCard _ _ _) _).
  assert (Hinner : exists q w0, inner w = (Ok q, w0)
                     /\ localStorage w0 = localStorage w
                     /\ sessionOf w0 = sessionOf w).
  { subst inner. unfold tryCatch, aiChatService_generateInsightCard, bind,
      logEffect, liftRes, ret.
    destruct (remoteInsight env); cbn [fst snd localStorage]; eauto. }
  destruct Hinner as (q & w0 & Hinner & Hlocal0 & Hsession0).
  unfold tryCatch, bind, throw. rewrite Hinner.
  pose proof (publishInsight_registered r cl (videoRef env) (captureFrame1 env)
                (now1 env) q w0 u Huser Hlen) as H1.
  destruct (publishInsight r cl (videoRef env) (captureFrame1 env) (now1 env) q w0)
    as [[[]|e1] w1]; cbn [fst snd] in H1 |- *.
  - intros _. destruct H1 as (card & H1). exists card, (now1 env).
    rewrite <- Hlocal0, <- Hsession0. exact H1.
  - subst w1.
    pose proof (publishInsight_registered r cl (videoRef env) (captureFrame2 env)
                  (now2 env) (hardcodedQuote (sessionType r)) w0 u Huser Hlen)
      as H2.
    destruct (publishInsight r cl (videoRef env) (captureFrame2 env) (now2 env)
                (hardcodedQuote (sessionType r)) w0)
      as [[[]|e2] w2]; cbn [fst snd] in H2 |- *.
    + intros _. destruct H2 as (card & H2). exists card, (now2 env).
      rewrite <- Hlocal0, <- Hsession0. exact H2.
    + discriminate.
Qed.

(** And for the click on the insight button, when generation does not
    fail. *)
Lemma handleGenerateInsightClick_registered r cl env w u :
  user r = Some u ->
  (1 < length (messages cl))%nat ->
  generationFails cl env = false ->
  let w' := exec (handleGenerateInsightClick r cl env) w in
  exists card now,
    cardOf w' = Some card
    /\ InsightCard.id card = pretty now
    /\ sessionOf w' = sessionOf w
    /\ localStorage w' !! "komorebi-chat-sessions"
       = Some (Json (JSessions
            (keepRecent50
               (archiveOf (localStorage w)
                ++ [insightSession r cl now (pretty now) (Some (pretty now))])))).
Proof.
  intros Huser Hlen Hworks.
  unfold handleGenerateInsightClick, exec, bind, tryFinally, tryCatch.
  cbn -[generateInsightCard].
  match goal with
  | |- context [generateInsightCard ?r ?cl ?env ?msgs ?w1] =>
      pose proof (generateInsightCard_outcome r cl env msgs w1) as Hout;
      pose proof (generateInsightCard_registered r cl env msgs w1 u Huser Hlen)
        as Hreg;
      destruct (generateInsightCard r cl env msgs w1) as [[[]|e] w2]
  end; cbn [fst snd] in *.
  - destruct (Hreg eq_refl) as (card & now & Hc & Hid & _ & _ & Hs & _ & Ha).
    exists card, now. cbn -[pretty keepRecent50 insightSession]. auto.
  - rewrite Hworks in Hout. discriminate.
Qed.

End LinkFacts.

Lemma keepRecent50_last_two p a b :
  keepRecent50 (p ++ [a; b]) = drop (length p + 2 - 50) p ++ [a; b].
Proof.
  unfold keepRecent50. rewrite length_app. cbn [length].
  case_bool_decide as Hlong.
  - apply drop_app_le. lia.
  - replace (length p + 2 - 50)%nat with 0%nat by lia. reflexivity.
Qed.

(** X16. For a registered user with something said, an insight generation
    that returns shows a card, stores it as the last entry of the insight
    list, and archives the session as the last entry of the archive: the
    entry carries the card's identifier as its link and the card's session
    identifier as its own, has the card's type, and holds the closure's
    transcript without the greeting. *)
Theorem X16_insight_linked_to_archive `{TimeUtils} r cl env msgs w u :
  user r = Some u ->
  (1 < length (messages cl))%nat ->
  let res := generateInsightCard r cl env msgs w in
  fst res = Ok tt ->
  exists card entry,
    cardOf (snd res) = Some card
    /\ last (asInsights (getItem (localStorage (snd res)) "insight-cards"
                           (JInsights []))) = Some card
    /\ last (archiveOf (localStorage (snd res))) = Some entry
    /\ ArchivedChatSession.insightCardId entry = Some (InsightCard.id card)
    /\ ArchivedChatSession.id entry = InsightCard.sessionId card
    /\ ArchivedChatSession.type entry = InsightCard.type card
    /\ ArchivedChatSession.messages entry
       = filter (fun msg => Message.id msg ≠ "greeting") (messages cl).
Proof.
  intros Huser Hlen res Hok.
  destruct (generateInsightCard_registered r cl env msgs w u Huser Hlen Hok)
    as (card & now & Hcard & Hid & Hsid & Hty & _ & Hlist & Harchive).
  exists card, (insightSession r cl now (pretty now) (Some (pretty now))).
  fold res in Hcard, Hlist, Harchive.
  split; [exact Hcard|].
  unfold archiveOf, getItem. rewrite Hlist, Harchive.
  cbn [asInsights asSessions]. rewrite last_snoc, keepRecent50_last.
  rewrite Hid, Hsid, Hty. repeat split; reflexivity.
Qed.

Lemma X16_insight_linked_to_archive_witness :
  let w := chatted registeredFree in
  let res := generateInsightCard (timeUtils := sampleTimeUtils) (registeredFree 3000)
               (comp w) (calmEnv 3000) [] w in
  exists card entry,
    cardOf (snd res) = Some card
    /\ last (asInsights (getItem (localStorage (snd res)) "insight-cards"
                           (JInsights []))) = Some card
    /\ last (archiveOf (localStorage (snd res))) = Some entry
    /\ ArchivedChatSession.insightCardId entry = Some (InsightCard.id card)
    /\ ArchivedChatSession.id entry = InsightCard.sessionId card
    /\ ArchivedChatSession.type entry = InsightCard.type card
    /\ ArchivedChatSession.messages entry
       = filter (fun msg => Message.id msg ≠ "greeting")
           (messages (comp (chatted registeredFree))).
Proof.
  apply (X16_insight_linked_to_archive (H := sampleTimeUtils) (registeredFree 3000)
           (comp (chatted registeredFree)) (calmEnv 3000) []
           (chatted registeredFree) "user-1").
  - reflexivity.
  - vm_compute. lia.
  - reflexivity.
Defined.

(** X17. Nothing keeps one session from being archived twice. When a
    registered user generates an insight and then starts a new session,
    the archive ends with two entries for the same session: the same
    transcript, the same link to the card, and, when the timer was running,
    the same creation time. *)
Theorem X17_session_archived_twice {timeUtils : TimeUtils} {sceneUtils : SceneUtils} r r' env now w u u' :
  user r = Some u -> user r' = Some u' ->
  (1 < length (messages (comp w)))%nat ->
  generationFails (comp w) env = false ->
  let w1 := dispatch r (GenerateInsight env) w in
  let w2 := dispatch r' (NewSession now) w1 in
  exists older e1 e2,
    archiveOf (localStorage w2) = older ++ [e1; e2]
    /\ ArchivedChatSession.messages e1 = ArchivedChatSession.messages e2
    /\ ArchivedChatSession.insightCardId e1 = ArchivedChatSession.insightCardId e2
    /\ is_Some (ArchivedChatSession.insightCardId e1)
    /\ (is_Some (sessionStartTime (comp w)) ->
        ArchivedChatSession.createdAt e1 = ArchivedChatSession.createdAt e2).
Proof.
  intros Huser Huser' Hlen Hworks w1 w2.
  destruct (handleGenerateInsightClick_registered r (comp w) env w u Huser Hlen Hworks)
    as (card & nowx & Hcard & Hid & Hsession & Harchive1).
  fold (dispatch r (GenerateInsight env) w) in Hcard, Hsession, Harchive1.
  fold w1 in Hcard, Hsession, Harchive1.
  unfold sessionOf in Hsession. injection Hsession as Hmsgs Hstart Hscene.
  assert (Hlen1 : (1 < length (messages (comp w1)))%nat) by (rewrite Hmsgs; exact Hlen).
  assert (Hug : userOrGuest r' = true) by (unfold userOrGuest; rewrite Huser'; reflexivity).
  destruct (handleNewSession_persisting r' (comp w1) now w1 Hlen1 Hug)
    as (Harchive2 & _).
  unfold scopeOf in Harchive2. rewrite Huser' in Harchive2.
  cbn [storeOf] in Harchive2.
  fold (dispatch r' (NewSession now) w1) in Harchive2. fold w2 in Harchive2.
  set (e1 := insightSession r (comp w) nowx (pretty nowx) (Some (pretty nowx))) in *.
  set (e2 := outgoingSession r' (comp w1) now) in *.
  assert (Hold : exists p, archiveOf (localStorage w1) = p ++ [e1]).
  { apply last_Some. unfold archiveOf, getItem. rewrite Harchive1.
    cbn [asSessions]. apply keepRecent50_last. }
  destruct Hold as (p & Hold).
  exists (drop (length p + 2 - 50) p), e1, e2.
  split.
  - unfold archiveOf at 1, getItem. rewrite Harchive2. cbn [asSessions].
    rewrite Hold, <- app_assoc. apply keepRecent50_last_two.
  - subst e1 e2. unfold insightSession, outgoingSession, cardOf in *.
    cbn [ArchivedChatSession.messages ArchivedChatSession.insightCardId
         ArchivedChatSession.createdAt].
    rewrite Hmsgs, Hstart, Hcard. cbn [fmap option_fmap option_map]. rewrite Hid.
    repeat split; eauto.
    intros [start Hrunning]. rewrite Hrunning. reflexivity.
Qed.

Lemma X17_session_archived_twice_witness :
  let w := chatted registeredFree in
  let w1 := dispatch (timeUtils := sampleTimeUtils) (sceneUtils := sampleSceneUtils) (registeredFree 3000)
              (GenerateInsight (calmEnv 3000)) w in
  let w2 := dispatch (timeUtils := sampleTimeUtils) (sceneUtils := sampleSceneUtils) (registeredFree 4000) (NewSession 4000) w1 in
  exists older e1 e2,
    archiveOf (localStorage w2) = older ++ [e1; e2]
    /\ ArchivedChatSession.messages e1 = ArchivedChatSession.messages e2
    /\ ArchivedChatSession.insightCardId e1 = ArchivedChatSession.insightCardId e2
    /\ is_Some (ArchivedChatSession.insightCardId e1)
    /\ (is_Some (sessionStartTime (comp (chatted registeredFree))) ->
        ArchivedChatSession.createdAt e1 = ArchivedChatSession.createdAt e2).
Proof.
  apply (X17_session_archived_twice (timeUtils := sampleTimeUtils) (sceneUtils := sampleSceneUtils) (registeredFree 3000)
           (registeredFree 4000) (calmEnv 3000) 4000 (chatted registeredFree)
           "user-1" "user-1").
  - reflexivity.
  - reflexivity.
  - vm_compute. lia.
  - reflexivity.
Defined.

(** ** Keywords of the local fallback *)

Lemma toLowerCase_app a b :
  toLowerCase (a +:+ b) = toLowerCase a +:+ toLowerCase b.
Proof.
  induction a as [|c a IH]; [reflexivity|].
  change (String (toLowerAscii c) (toLowerCase (a +:+ b))
          = String (toLowerAscii c) (toLowerCase a +:+ toLowerCase b)).
  rewrite IH. reflexivity.
Qed.

Lemma prefix_empty s : String.prefix "" s = true.
Proof. destruct s; reflexivity. Qed.

Lemma prefix_app_r sub s t :
  String.prefix sub s = true -> String.prefix sub (s +:+ t) = true.
Proof.
  revert s. induction sub as [|c sub IH]; intros s Hp; [apply prefix_empty|].
  destruct s as [|d s]; [discriminate|].
  change (String d s +:+ t) with (String d (s +:+ t)).
  cbn [String.prefix] in *.
  destruct (ascii_dec c d); [apply IH, Hp | discriminate].
Qed.

Lemma includes_app_r s t sub :
  includes s sub = true -> includes (s +:+ t) sub = true.
Proof.
  induction s as [|c s IH]; intros Hin.
  - cbn [includes] in Hin. rewrite orb_false_r in Hin.
    destruct sub; [|discriminate].
    destruct ("" +:+ t); cbn [includes]; rewrite prefix_empty; reflexivity.
  - change (String c s +:+ t) with (String c (s +:+ t)).
    cbn [includes] in *.
    apply orb_true_iff in Hin as [Hp|Hin].
    + apply (prefix_app_r sub (String c s) t) in Hp.
      change (String c s +:+ t) with (String c (s +:+ t)) in Hp.
      rewrite Hp. reflexivity.
    + rewrite IH by exact Hin. apply orb_true_r.
Qed.

Lemma includes_app_l s t sub :
  includes t sub = true -> includes (s +:+ t) sub = true.
Proof.
  intros Hin. induction s as [|c s IH]; [exact Hin|].
  change (String c s +:+ t) with (String c (s +:+ t)).
  cbn [includes]. rewrite IH. apply orb_true_r.
Qed.

Lemma includes_join sep l c sub :
  c ∈ l -> includes c sub = true -> includes (join sep l) sub = true.
Proof.
  unfold join. induction l as [|x l IH]; intros Hin Hsub.
  - apply elem_of_nil in Hin. contradiction.
  - destruct l as [|y l].
    + apply list_elem_of_singleton in Hin as ->. exact Hsub.
    + change (String.concat sep (x :: y :: l))
        with (x +:+ sep +:+ String.concat sep (y :: l)).
      apply elem_of_cons in Hin as [->|Hin].
      * apply includes_app_r, Hsub.
      * apply includes_app_l, includes_app_l, IH; assumption.
Qed.

Lemma toLowerCase_join sep l :
  toLowerCase (join sep l) = join (toLowerCase sep) (map toLowerCase l).
Proof.
  unfold join. induction l as [|x l IH]; [reflexivity|].
  destruct l as [|y l]; [reflexivity|].
  change (String.concat sep (x :: y :: l))
    with (x +:+ sep +:+ String.concat sep (y :: l)).
  change (String.concat (toLowerCase sep) (map toLowerCase (x :: y :: l)))
    with (toLowerCase x +:+ toLowerCase sep
          +:+ String.concat (toLowerCase sep) (map toLowerCase (y :: l))).
  rewrite !toLowerCase_app, IH. reflexivity.
Qed.

(** A keyword in what a user wrote, in any letter case, is in the
    conversation text. *)
Lemma conversationText_includes msgs m keyword :
  m ∈ msgs -> Message.role m = RoleUser ->
  includes (toLowerCase (Message.content m)) keyword = true ->
  includes (conversationTextOf msgs) keyword = true.
Proof.
  intros Hin Hrole Hkey. unfold conversationTextOf.
  rewrite toLowerCase_join.
  apply (includes_join _ _ (toLowerCase (Message.content m))); [|exact Hkey].
  apply list_elem_of_In, in_map, in_map, list_elem_of_In.
  apply list_elem_of_filter. split; assumption.
Qed.

Lemma mentionsAny_true text keywords keyword :
  keyword ∈ keywords -> includes text keyword = true ->
  mentionsAny text keywords = true.
Proof.
  intros Hin Hkey. unfold mentionsAny. apply existsb_exists.
  exists keyword. split; [apply list_elem_of_In, Hin | exact Hkey].
Qed.

(** X18. A stress keyword in any message the user wrote, in whatever
    letter case, decides the category whatever else was said: the fallback
    answers from the stress pool of the session type. What the assistant
    wrote does not count: a transcript without user messages falls to the
    general pool. *)
Theorem X18_stress_keyword_wins msgs ty rnd :
  (forall m keyword,
      m ∈ msgs -> Message.role m = RoleUser ->
      keyword ∈ stressKeywords ->
      includes (toLowerCase (Message.content m)) keyword = true ->
      unitDouble rnd ->
      exists q, simulateInsightGeneration msgs ty rnd = Some q
                /\ q ∈ spec_pool Stress ty)
  /\ ((forall m, m ∈ msgs -> Message.role m = RoleAssistant) ->
      unitDouble rnd ->
      exists q, simulateInsightGeneration msgs ty rnd = Some q
                /\ q ∈ spec_pool General ty).
Proof.
  split.
  - intros m keyword Hin Hrole Hkw Hkey Hunit.
    rewrite simulate_follows_table.
    assert (spec_category (conversationTextOf msgs) = Stress) as ->.
    { unfold spec_category.
      rewrite (mentionsAny_true _ _ keyword Hkw
                 (conversationText_includes msgs m keyword Hin Hrole Hkey)).
      reflexivity. }
    apply pickRandom_defined; [exact Hunit | apply spec_pool_nonempty].
  - intros Hassistant Hunit. rewrite simulate_follows_table.
    assert (filter (fun m => Message.role m = RoleUser) msgs = []) as Hnone.
    { destruct (filter (fun m => Message.role m = RoleUser) msgs) as [|m rest] eqn:Hf;
        [reflexivity|].
      assert (m ∈ filter (fun m => Message.role m = RoleUser) msgs) as Hin
        by (rewrite Hf; left).
      apply list_elem_of_filter in Hin as [Hrole Hin].
      rewrite (Hassistant m Hin) in Hrole. discriminate. }
    assert (spec_category (conversationTextOf msgs) = General) as ->.
    { unfold conversationTextOf. rewrite Hnone. reflexivity. }
    apply pickRandom_defined; [exact Hunit | apply spec_pool_nonempty].
Qed.

Lemma X18_stress_keyword_wins_witness :
  exists q,
    simulateInsightGeneration stressedTranscript morning draw_third = Some q
    /\ q ∈ spec_pool Stress morning.
Proof.
  apply (proj1 (X18_stress_keyword_wins stressedTranscript morning draw_third)
           (Message.mk "2000" "I feel STRESS" RoleUser 2000) "stress").
  - unfold stressedTranscript. do 3 right. left.
  - reflexivity.
  - unfold stressKeywords. left.
  - reflexivity.
  - vm_compute. intuition discriminate.
Defined.

(** ** State and storage in step *)

Section SyncFacts.

Context {timeUtils : TimeUtils} {sceneUtils : SceneUtils}.

Lemma dispatch_limitsInSync r ev w :
  userOrGuest r = true ->
  SessionLimits.maxMessages (sessionLimits (comp w)) = tierCap (isPro r) ->
  limitsInSync (scopeOf r) w ->
  SessionLimits.maxMessages (sessionLimits (comp (dispatch r ev w)))
  = tierCap (isPro r)
  /\ limitsInSync (scopeOf r) (dispatch r ev w).
Proof.
  intros Hug Hmax Hsync. unfold limitsInSync in *.
  destruct ev as [now content response now'|env|now| |now|now]; cbn [dispatch].
  - destruct (sendBlocked r (comp w)) eqn:Hb.
    + unfold exec. rewrite send_blocked_noop by exact Hb. split; assumption.
    + rewrite send_limits_stored by assumption.
      pose proof (send_limits r (comp w) now content response now' w Hb) as Hlim.
      unfold limitsOf in Hlim. rewrite Hlim. split; [exact Hmax | reflexivity].
  - pose proof (handleGenerateInsightClick_limits r (comp w) env w) as Hlim.
    unfold limitsOf in Hlim. unfold exec. rewrite Hlim.
    rewrite (stored_storeOf _ _ _ _ (insight_limits_stored r (comp w) env w)).
    split; assumption.
  - rewrite newSession_limits_stored by assumption.
    pose proof (newSession_limits r (comp w) now w) as Hlim.
    unfold limitsOf in Hlim. rewrite Hlim. split; [exact Hmax | reflexivity].
  - unfold exec.
    rewrite (stored_storeOf _ _ _ _ (proj1 (effects_limits_stored r (comp w) 0) w)).
    unfold saveMessagesEffect. destruct (bool_decide _); split; assumption.
  - unfold exec.
    rewrite (stored_storeOf _ _ _ _ (proj2 (effects_limits_stored r (comp w) now) w)).
    unfold autoStartEffect. destruct (_ && _); split; assumption.
  - pose proof (mountEffect_limits r (comp w) now w) as Hlim.
    assert ("session-limits" <> "current-scene") as Hkey by discriminate.
    destruct (mountEffect_stored r (comp w) now "session-limits" Hkey)
      as (_ & _ & Hsame).
    unfold limitsOf, exec in *.
    rewrite Hlim, (stored_storeOf _ _ _ _ (Hsame w)), Hsync.
    unfold loadedLimits, getItem. rewrite Hug, Hsync. cbn [asLimits].
    fold (tierCap (isPro r)). rewrite <- Hmax.
    destruct (sessionLimits (comp w)). split; reflexivity.
Qed.

End SyncFacts.

(** X19. For a registered user or a guest the limits record in storage
    keeps step with the one in state while the identity and the tier stay
    the same: once they agree, with [maxMessages] that of the tier, they
    agree after any run of events. The handlers change the limits through
    [saveSessionLimits] only, nothing else writes the key, and the mount
    effect takes over the stored record with the [maxMessages] of the tier,
    which is then the one it has. *)
Theorem X19_limits_in_sync {timeUtils : TimeUtils} {sceneUtils : SceneUtils}
    sc paid evs w :
  Forall (fun e => scopeOf e.1 = sc /\ userOrGuest e.1 = true /\ isPro e.1 = paid) evs ->
  SessionLimits.maxMessages (sessionLimits (comp w)) = tierCap paid ->
  limitsInSync sc w ->
  limitsInSync sc (run evs w).
Proof.
  intros Hevs Hmax Hsync.
  enough (SessionLimits.maxMessages (sessionLimits (comp (run evs w))) = tierCap paid
          /\ limitsInSync sc (run evs w)) as [_ Hgoal] by exact Hgoal.
  revert w Hmax Hsync.
  induction evs as [|[r ev] evs IH]; intros w Hmax Hsync; [split; assumption|].
  inversion Hevs as [|? ? (Hsc & Hug & Hpaid) Hrest]; subst.
  cbn [run].
  destruct (dispatch_limitsInSync r ev w Hug Hmax Hsync) as [Hmax' Hsync'].
  apply IH; assumption.
Qed.

Lemma X19_limits_in_sync_witness :
  limitsInSync Ephemeral
    (run (timeUtils := sampleTimeUtils) (sceneUtils := sampleSceneUtils)
       (sends guestFree 2 2000 ++ [(guestFree 4500, Mount 4500)]
        ++ [(guestFree 9000, NewSession 9000)]
        ++ sends guestFree 2 10000)
       (chatted guestFree)).
Proof.
  apply (X19_limits_in_sync (timeUtils := sampleTimeUtils)
           (sceneUtils := sampleSceneUtils) Ephemeral false).
  - vm_compute. repeat constructor.
  - reflexivity.
  - vm_compute. reflexivity.
Defined.

(** ** The mount effect *)

Section MountFacts.

Context {timeUtils : TimeUtils} {sceneUtils : SceneUtils}.

Lemma loadSessionStartTime_returns r w : fst (loadSessionStartTime r w) = Ok tt.
Proof.
  unfold loadSessionStartTime, bind, storage_get. cbv beta iota.
  destruct (asDate _); reflexivity.
Qed.

Lemma mount_parts_stored r key :
  key <> "current-scene" ->
  preserves (stored key) (loadSessionLimits r)
  /\ preserves (stored key) (loadSessionStartTime r).
Proof.
  intros Hkey. unfold loadSessionLimits, loadSessionStartTime.
  split; frame_stored.
Qed.

(** A stored transcript that is not empty is what the mount effect leaves
    in state, whatever the state was. *)
Lemma mountEffect_restores r cl now w m l :
  storeOf (scopeOf r) w !! "current-session-messages"
  = Some (Json (JMessages (m :: l))) ->
  messages (comp (exec (mountEffect r cl now) w)) = m :: l.
Proof.
  intros Hsaved.
  assert ("current-session-messages" <> "current-scene") as Hkey by discriminate.
  destruct (mountEffect_stored r cl now _ Hkey) as (Hvideo & Hscene & _).
  destruct (mount_parts_stored r _ Hkey) as (Hlimits & Hstart).
  unfold mountEffect, exec.
  rewrite (bind_returns _ _ _ (loadVideoSetting_returns r w)).
  specialize (Hvideo w). set (w1 := snd (loadVideoSetting r w)) in *.
  rewrite (bind_returns _ _ _ (loadScene_returns r w1)).
  specialize (Hscene w1). set (w2 := snd (loadScene r w1)) in *.
  rewrite (bind_returns _ _ _ (loadSessionLimits_returns r w2)).
  specialize (Hlimits w2). set (w3 := snd (loadSessionLimits r w2)) in *.
  rewrite (bind_returns _ _ _ (loadSessionStartTime_returns r w3)).
  specialize (Hstart w3). set (w4 := snd (loadSessionStartTime r w3)) in *.
  assert (storeOf (scopeOf r) w4 !! "current-session-messages"
          = Some (Json (JMessages (m :: l)))) as Hsaved4.
  { rewrite (stored_storeOf _ _ _ _ Hstart), (stored_storeOf _ _ _ _ Hlimits),
      (stored_storeOf _ _ _ _ Hscene), (stored_storeOf _ _ _ _ Hvideo).
    exact Hsaved. }
  unfold loadMessages, bind, storage_get, getItem. rewrite Hsaved4.
  reflexivity.
Qed.

(** X20. For a visitor who is neither registered nor a guest, the mount
    effect puts a fresh limits record in state each time it runs, whatever
    was used before, and leaves the counter since the last insight and the
    offer flag as they are. So the cap of four does not bound what a
    visitor sends across runs of the effect, and the counter can reach
    five. *)
Theorem X20_visitor_cap_starts_afresh r now w :
  user r = None -> isGuest r = false ->
  let w' := dispatch r (Mount now) w in
  sessionLimits (comp w') = SessionLimits.mk false false 0 4 None None
  /\ insightCounter w' = insightCounter w
  /\ offerFlag w' = offerFlag w.
Proof.
  intros Hnouser Hnoguest w'. subst w'. cbn [dispatch].
  pose proof (mountEffect_limits r (comp w) now w) as Hlim.
  destruct (mountEffect_flags r (comp w) now) as [Hflag Hcnt].
  unfold limitsOf, exec in *. rewrite Hlim, Hflag, Hcnt.
  unfold loadedLimits, userOrGuest. rewrite Hnouser, Hnoguest.
  repeat split.
Qed.

(** X21. What the effect that saves the transcript stored is what the
    mount effect restores after a reload, under any identity that reads the
    same storage area: the transcript in state is again the one that was
    saved. *)
Theorem X21_transcript_survives_reload r r' now w :
  messages (comp w) <> [] ->
  scopeOf r' = scopeOf r ->
  let saved := dispatch r SaveMessages w in
  let reloaded := dispatch r' (Mount now) (reload r' saved) in
  messages (comp reloaded) = messages (comp w).
Proof.
  intros Hsome Hscope saved reloaded. subst reloaded saved. cbn [dispatch].
  destruct (messages (comp w)) as [|m l] eqn:Hmsgs; [contradiction|].
  apply mountEffect_restores. rewrite Hscope.
  unfold exec, saveMessagesEffect, storage_set, reload. rewrite Hmsgs.
  rewrite bool_decide_eq_true_2 by (cbn [length]; lia).
  unfold when, writeItem.
  destruct (scopeOf r); cbn [snd storeOf localStorage sessionStorage];
    apply lookup_insert_eq.
Qed.

End MountFacts.

Lemma X20_visitor_cap_starts_afresh_witness :
  let w := run (timeUtils := sampleTimeUtils) (sceneUtils := sampleSceneUtils)
             (sends visitor 4 1000) (freshWorld (visitor 0)) in
  let w' := dispatch (timeUtils := sampleTimeUtils) (sceneUtils := sampleSceneUtils)
              (visitor 5000) (Mount 5000) w in
  SessionLimits.messagesUsed (sessionLimits (comp w)) = 4
  /\ (sessionLimits (comp w') = SessionLimits.mk false false 0 4 None None
      /\ insightCounter w' = insightCounter w
      /\ offerFlag w' = offerFlag w)
  /\ offerFlag (run (timeUtils := sampleTimeUtils) (sceneUtils := sampleSceneUtils)
                  (sends visitor 1 6000) w') = true.
Proof.
  split; [reflexivity|]. split; [|reflexivity].
  apply (X20_visitor_cap_starts_afresh (timeUtils := sampleTimeUtils)
           (sceneUtils := sampleSceneUtils) (visitor 5000) 5000);
    reflexivity.
Defined.

Lemma X21_transcript_survives_reload_witness :
  let w := chatted guestFree in
  let saved := dispatch (timeUtils := sampleTimeUtils) (sceneUtils := sampleSceneUtils)
                 (guestFree 2000) SaveMessages w in
  let reloaded := dispatch (timeUtils := sampleTimeUtils)
                    (sceneUtils := sampleSceneUtils)
                    (guestFree 3000) (Mount 3000) (reload (guestFree 3000) saved) in
  messages (comp reloaded) = messages (comp w).
Proof.
  apply (X21_transcript_survives_reload (timeUtils := sampleTimeUtils)
           (sceneUtils := sampleSceneUtils) (guestFree 2000) (guestFree 3000) 3000
           (chatted guestFree)).
  - vm_compute. discriminate.
  - reflexivity.
Defined.
